(** * EdgeDriverManager: a shallow embedding of [web_driver.py]

    The script provisions the Microsoft Edge driver: it reads the browser
    version from the registry, downloads the matching archive, launches the
    driver once as a smoke test, falls back to the other builds listed in
    the storage index, and copies the binary to the bots' folders.

    The program is sequential glue around external services, so it is
    embedded as a state-and-exception monad over
      - the instance dictionary of the [EdgeDriverLocal] object
        (a [gmap string pyval]),
      - an abstract outside world (registry, HTTP, zip, selenium, O365,
        file system), given by an [Env] of oracles that may raise,
      - the trace of observable events and method calls. *)

From Stdlib Require Import ZArith List String Ascii Bool Lia.
From stdpp Require Import base option list strings gmap.
Import ListNotations.

#[local] Set Warnings "-register-all".

Open Scope string_scope.
Open Scope Z_scope.

(** ** Python values *)

(** The values the script handles: what [json.load] and [xmltodict.parse]
    return, plus opaque objects (logger, datetime, selenium and O365
    handles).  A dictionary keeps its insertion order, which is what
    iterating it enumerates. *)
Inductive pyval : Type :=
| PNone
| PBool (b : bool)
| PInt (z : Z)
| PStr (s : string)
| PList (l : list pyval)
| PDict (d : list (string * pyval))
| PObj (tag : string).

(** ** Exceptions *)

Inductive exn : Type :=
| AttributeError (name : string)
| KeyError (key : string)
| TypeError (what : string)
| IndexError
| LibraryError (msg : string)   (* raised inside requests, zipfile, selenium,
                                   xmltodict, json, winreg, O365, shutil *)
| SystemExit (code : option Z).

(** [except Exception] catches everything but [SystemExit] (a
    [BaseException]). *)
Definition is_Exception (e : exn) : bool :=
  match e with
  | SystemExit _ => false
  | _ => true
  end.

Definition str_exn (e : exn) : string :=
  match e with
  | AttributeError n => "object has no attribute '" ++ n ++ "'"
  | KeyError k => "'" ++ k ++ "'"
  | TypeError w => w
  | IndexError => "list index out of range"
  | LibraryError m => m
  | SystemExit _ => ""
  end.

Inductive outcome (A : Type) : Type :=
| Ok (a : A)
| Raise (e : exn).
Arguments Ok {A} a.
Arguments Raise {A} e.

(** ** String operations used by the candidate filter *)

(** [s.split(c)] for a one-character separator: never empty. *)
Fixpoint split_on (c : ascii) (s : string) : list string :=
  match s with
  | EmptyString => [EmptyString]
  | String a rest =>
      if Ascii.eqb a c then EmptyString :: split_on c rest
      else match split_on c rest with
           | h :: t => String a h :: t
           | [] => [String a EmptyString]
           end
  end.

Fixpoint starts_with (p s : string) : bool :=
  match p, s with
  | EmptyString, _ => true
  | String a p', String b s' => Ascii.eqb a b && starts_with p' s'
  | String _ _, EmptyString => false
  end.

(** [sub in s] on two strings. *)
Fixpoint contains (sub s : string) : bool :=
  starts_with sub s ||
  match s with
  | EmptyString => false
  | String _ s' => contains sub s'
  end.

(** [c.upper()] and [s.upper()] on ASCII letters. *)
Definition upper_ascii (c : ascii) : ascii :=
  let n := nat_of_ascii c in
  if ((97 <=? n) && (n <=? 122))%nat then ascii_of_nat (n - 32) else c.

Fixpoint upper (s : string) : string :=
  match s with
  | EmptyString => EmptyString
  | String a rest => String (upper_ascii a) (upper rest)
  end.

(** ** Operations on Python values *)

Fixpoint assoc (k : string) (d : list (string * pyval)) : option pyval :=
  match d with
  | [] => None
  | (k', v) :: rest => if String.eqb k k' then Some v else assoc k rest
  end.

(** [v.get(k)]: only a dictionary has [get]; a missing key gives [None]. *)
Definition py_get (v : pyval) (k : string) : outcome pyval :=
  match v with
  | PDict d => Ok (default PNone (assoc k d))
  | _ => Raise (AttributeError "get")
  end.

(** [v[k]] with a string key. *)
Definition py_getitem (v : pyval) (k : string) : outcome pyval :=
  match v with
  | PDict d => match assoc k d with
               | Some x => Ok x
               | None => Raise (KeyError k)
               end
  | PStr _ => Raise (TypeError "string indices must be integers")
  | PList _ => Raise (TypeError "list indices must be integers or slices")
  | _ => Raise (TypeError "object is not subscriptable")
  end.

Definition chars (s : string) : list pyval :=
  map (fun a => PStr (String a EmptyString)) (list_ascii_of_string s).

(** [for u in v]: a list gives its items, a dictionary its keys, a string
    its characters. *)
Definition py_iter (v : pyval) : outcome (list pyval) :=
  match v with
  | PList l => Ok l
  | PDict d => Ok (map (fun kv => PStr (fst kv)) d)
  | PStr s => Ok (chars s)
  | _ => Raise (TypeError "object is not iterable")
  end.

(** [v.split(".")] *)
Definition py_split_dot (v : pyval) : outcome (list string) :=
  match v with
  | PStr s => Ok (split_on "." s)
  | _ => Raise (AttributeError "split")
  end.

(** [l[0]] *)
Definition py_first (l : list string) : outcome string :=
  match l with
  | x :: _ => Ok x
  | [] => Raise IndexError
  end.

(** Truth value of [v] in a condition. *)
Definition truthy (v : pyval) : bool :=
  match v with
  | PNone => false
  | PBool b => b
  | PInt z => negb (z =? 0)
  | PStr s => negb (String.eqb s "")
  | PList l => negb (bool_decide (l = []))
  | PDict d => negb (bool_decide (d = []))
  | PObj _ => true
  end.

(** [a in b] where [b] is a string. *)
Definition py_in_str (a : pyval) (b : string) : outcome bool :=
  match a with
  | PStr sub => Ok (contains sub b)
  | _ => Raise (TypeError "'in <string>' requires string as left operand")
  end.

(** [a in b].  The script only evaluates it with [b = u["Name"]] after
    [u["Name"].split(".")] has succeeded, so [b] is a string there; for
    the other operands Python's container membership is not needed and
    the model raises. *)
Definition py_in (a b : pyval) : outcome bool :=
  match b with
  | PStr s => py_in_str a s
  | _ => Raise (TypeError "membership outside strings is not modelled")
  end.

(** ** The outside world *)

(** An HTTP response: [r.status_code], [r.content], [r.text]. *)
Record response : Type := Response {
  status_code : Z;
  content : string;
  text : string
}.

(** [r.ok]: the status is not a 4xx or 5xx one. *)
Definition ok (r : response) : bool :=
  negb ((400 <=? status_code r) && (status_code r <? 600)).

(** What a library call gives back: a value, or an exception of the
    library (always an [Exception]). *)
Inductive ext (A : Type) : Type :=
| Returned (a : A)
| Failed (msg : string).
Arguments Returned {A} a.
Arguments Failed {A} msg.

(** A formatted text (log message, mail subject or body): the literal text of the f-string and the values
    interpolated in it. *)
Inductive message : Type := Msg (literal : string) (args : list pyval).

(** The O365 calls of [send_mail], in source order. *)
Inductive o365_op : Type :=
| AccountCredentials (client token tenant : pyval)
| TokenBackend (path : pyval)
| AccountBackend
| IsAuthenticated
| Authenticate
| GraphProtocol (user : pyval)
| AccountProtocol
| NewMessage
| AddRecipients (to : pyval)
| Send (subject body : message).

(** The oracles the script calls; [W] is the state of the world
    (registry, network, disk, mailbox), which every call may change. *)
Record Env (W : Type) : Type := {
  winreg_query : W -> ext string * W;
  requests_get : string -> W -> ext response * W;
  zip_extractall : string -> W -> ext unit * W;
  webdriver_edge : pyval -> W -> ext unit * W;
  driver_close : W -> ext unit * W;
  xmltodict_parse : string -> W -> ext pyval * W;
  json_load : string -> W -> ext pyval * W;
  shutil_copy2 : pyval -> pyval -> W -> ext unit * W;
  o365 : o365_op -> W -> ext pyval * W
}.
Arguments winreg_query {W}.
Arguments requests_get {W}.
Arguments zip_extractall {W}.
Arguments webdriver_edge {W}.
Arguments driver_close {W}.
Arguments xmltodict_parse {W}.
Arguments json_load {W}.
Arguments shutil_copy2 {W}.
Arguments o365 {W}.

(** ** Observable events *)

Inductive method : Type :=
| Init | GetEdgeVersion | Download | Test | TryAnotherVersion
| SendMail | ImportData | CopyToPath.

Inductive level : Type := Debug | Info | Warning | Error.

Inductive event : Type :=
| ECall (m : method)                       (* entry of a method *)
| EPrint (tag : string) (m : message)      (* print(...) *)
| ELogger (l : level) (m : message)        (* self.logger.<level>(...) *)
| ERegistry                                (* winreg.QueryValueEx *)
| EHttpGet (url : string)                  (* requests.get *)
| EExtract                                 (* ZipFile(...).extractall() *)
| ELaunch (exe : pyval)                    (* webdriver.Edge(...) *)
| EClose                                   (* driver.close() *)
| EXmlParse                                (* xmltodict.parse *)
| EJsonLoad (path : string)                (* open + json.load *)
| ECopy (src dst : pyval)                  (* shutil.copy2 *)
| EO365 (op : o365_op).

Definition is_call (m : method) (e : event) : bool :=
  match e, m with
  | ECall Init, Init | ECall GetEdgeVersion, GetEdgeVersion
  | ECall Download, Download | ECall Test, Test
  | ECall TryAnotherVersion, TryAnotherVersion
  | ECall SendMail, SendMail | ECall ImportData, ImportData
  | ECall CopyToPath, CopyToPath => true
  | _, _ => false
  end.

Definition is_http (e : event) : bool :=
  match e with EHttpGet _ => true | _ => false end.

Definition is_extract (e : event) : bool :=
  match e with EExtract => true | _ => false end.

Definition is_logger (l : level) (e : event) : bool :=
  match e, l with
  | ELogger Debug _, Debug | ELogger Info _, Info
  | ELogger Warning _, Warning | ELogger Error _, Error => true
  | _, _ => false
  end.

(** How many events of a trace satisfy [p]. *)
Definition count (p : event -> bool) (t : list event) : nat :=
  length (List.filter p t).

(** ** The state-and-exception monad *)

Record state (W : Type) : Type := State {
  self_dict : gmap string pyval;   (* self.__dict__ *)
  world : W;
  trace : list event               (* oldest event first *)
}.
Arguments State {W}.
Arguments self_dict {W}.
Arguments world {W}.
Arguments trace {W}.

Definition M (W A : Type) : Type := state W -> outcome A * state W.

Definition ret {W A} (a : A) : M W A := fun s => (Ok a, s).

Definition raise {W A} (e : exn) : M W A := fun s => (Raise e, s).

Definition bind {W A B} (m : M W A) (k : A -> M W B) : M W B :=
  fun s =>
    match m s with
    | (Ok a, s') => k a s'
    | (Raise e, s') => (Raise e, s')
    end.

(** [try: body except Exception as e: handler] *)
Definition try_except {W A} (body : M W A) (handler : exn -> M W A) : M W A :=
  fun s =>
    match body s with
    | (Ok a, s') => (Ok a, s')
    | (Raise e, s') => if is_Exception e then handler e s' else (Raise e, s')
    end.

Declare Scope py_scope.
Delimit Scope py_scope with py.
Notation "'let*' x ':=' m 'in' k" := (bind m (fun x => k))
  (at level 10, x name, m at level 100, k at level 200) : py_scope.
Notation "m '>>' k" := (bind m (fun _ => k))
  (at level 90, right associativity) : py_scope.
Open Scope py_scope.

Definition lift {W A} (o : outcome A) : M W A := fun s => (o, s).

Definition emit {W} (e : event) : M W unit :=
  fun s => (Ok tt, State (self_dict s) (world s) (trace s ++ [e])).

(** A library call: logged in the trace, answered by the world. *)
Definition call_ext {W A} (e : event) (f : W -> ext A * W) : M W A :=
  fun s =>
    let (r, w) := f (world s) in
    let s' := State (self_dict s) w (trace s ++ [e]) in
    match r with
    | Returned a => (Ok a, s')
    | Failed msg => (Raise (LibraryError msg), s')
    end.

(** A method body, with its entry recorded in the trace. *)
Definition enter {W A} (m : method) (body : M W A) : M W A :=
  emit (ECall m) >> body.

(** ** The class [EdgeDriverLocal] *)

(** Attributes defined in the class body, found when the instance
    dictionary has no entry of that name. *)
Definition class_attr (name : string) : option pyval :=
  if String.eqb name "PATH_OF_PROPERTIES" then Some (PStr "properties.json")
  else if String.eqb name "LOG_FORMAT"
       then Some (PStr "%(levelname)s %(asctime)s - %(message)s")
  else if existsb (String.eqb name)
            ["today_datetime"; "today"; "logger"; "__init__";
             "_get_edge_version"; "download"; "test";
             "try_another_version"; "print_and_log"; "send_mail";
             "import_data"; "copy_to_path"]
       then Some (PObj name)
  else None.

Definition stars : string := "****************************************".

Definition base_storage : string :=
  "https://msedgewebdriverstorage.blob.core.windows.net/edgewebdriver/".

(** The f-string of line 53. *)
Definition matched_url (version os_type : string) : string :=
  base_storage ++ version ++ "/edgedriver_" ++ os_type ++ ".zip".

Section Methods.

Context {W : Type} (env : Env W).

(** [self.name] *)
Definition getattr (name : string) : M W pyval :=
  fun s =>
    match self_dict s !! name with
    | Some v => (Ok v, s)
    | None => match class_attr name with
              | Some v => (Ok v, s)
              | None => (Raise (AttributeError name), s)
              end
    end.

(** [self.name = v] *)
Definition setattr (name : string) (v : pyval) : M W unit :=
  fun s => (Ok tt, State (<[name := v]> (self_dict s)) (world s) (trace s)).

Fixpoint for_each {A} (l : list A) (body : A -> M W unit) : M W unit :=
  match l with
  | [] => ret tt
  | x :: rest => body x >> for_each rest body
  end.

(** [requests.get(url)]: a value that is no URL is refused before any
    request is made. *)
Definition http_get (url : pyval) : M W response :=
  match url with
  | PStr u => call_ext (EHttpGet u) (requests_get env u)
  | _ => raise (LibraryError "MissingSchema")
  end.

Definition print_and_log (m : message) (log_type : string) : M W unit :=
  emit (EPrint (upper log_type) m) >>
  if String.eqb log_type "info" then emit (ELogger Info m)
  else if String.eqb log_type "warning" then emit (ELogger Warning m)
  else if String.eqb log_type "error" then emit (ELogger Error m)
  else emit (ELogger Debug m).

Definition log_exception (e : exn) : M W unit :=
  print_and_log (Msg "" [PStr (str_exn e)]) "debug" >>
  print_and_log (Msg "traceback" [PStr (str_exn e)]) "debug".

Definition _get_edge_version : M W string :=
  enter GetEdgeVersion (call_ext ERegistry (winreg_query env)).

Definition download : M W bool :=
  enter Download
    (try_except
       (let* url := getattr "url" in
        print_and_log (Msg "Download started with url: " [url]) "info" >>
        let* url := getattr "url" in
        let* r := http_get url in
        if status_code r =? 200 then
          call_ext EExtract (zip_extractall env (content r)) >>
          print_and_log (Msg "Download finished with status: " [PBool (ok r)])
            "info" >>
          ret (ok r)
        else
          let* url := getattr "url" in
          print_and_log (Msg "Not found : " [url]) "warning" >>
          ret false)
       (fun e =>
          let* url := getattr "url" in
          print_and_log (Msg "Download failed with with url: " [url]) "error" >>
          log_exception e >>
          ret false)).

Definition test : M W bool :=
  enter Test
    (try_except
       (print_and_log (Msg "Testing started" []) "info" >>
        let* exe := getattr "DRIVER_NAME" in
        call_ext (ELaunch exe) (webdriver_edge env exe) >>
        (* sleep(1) *)
        call_ext EClose (driver_close env) >>
        print_and_log (Msg "Testing finished succesfully" []) "info" >>
        ret true)
       (fun e =>
          print_and_log
            (Msg "Test failed, have to try another driver version..." [])
            "warning" >>
          log_exception e >>
          ret false)).

Definition html (m : message) : message :=
  match m with
  | Msg literal args =>
      Msg ("<h2>Error chequeo de driver</h2><p>" ++ literal
           ++ "</p><p>Atte: Bot de chequeo de driver de respaldo</p>") args
  end.

Definition send_mail (m subject : message) : M W unit :=
  enter SendMail
    (let body := html m in
     try_except
       (let* client := getattr "CLIENT_ID" in
        let* token := getattr "token_mail" in
        let* tenant := getattr "TENANT_ID" in
        let creds := AccountCredentials client token tenant in
        call_ext (EO365 creds) (o365 env creds) >>
        let* path := getattr "CURRENT_PATH" in
        call_ext (EO365 (TokenBackend path)) (o365 env (TokenBackend path)) >>
        call_ext (EO365 AccountBackend) (o365 env AccountBackend) >>
        let* auth := call_ext (EO365 IsAuthenticated)
                       (o365 env IsAuthenticated) in
        (if truthy auth then ret tt
         else
           let* tenant := getattr "TENANT_ID" in
           let creds := AccountCredentials client token tenant in
           call_ext (EO365 creds) (o365 env creds) >>
           call_ext (EO365 Authenticate) (o365 env Authenticate) >>
           print_and_log (Msg "Authenticated" []) "debug") >>
        let* user := getattr "user_mail" in
        call_ext (EO365 (GraphProtocol user)) (o365 env (GraphProtocol user)) >>
        call_ext (EO365 AccountProtocol) (o365 env AccountProtocol) >>
        call_ext (EO365 NewMessage) (o365 env NewMessage) >>
        let* to := getattr "EMAILS_TO_REPORT" in
        call_ext (EO365 (AddRecipients to)) (o365 env (AddRecipients to)) >>
        let* _ := getattr "today_datetime" in
        call_ext (EO365 (Send subject body)) (o365 env (Send subject body)) >>
        ret tt)
       (fun e => log_exception e)).

Definition import_data : M W pyval :=
  enter ImportData
    (try_except
       (let* path := getattr "PATH_OF_PROPERTIES" in
        match path with
        | PStr p => call_ext (EJsonLoad p) (json_load env p)
        | _ => raise (TypeError "expected str, bytes or os.PathLike object")
        end)
       (fun e =>
          print_and_log
            (Msg "Log error of version, notiftying via mail..." []) "debug" >>
          send_mail
            (Msg "No se pudo descargar ninguna version del driver, por favor, reviselo manualmente. Error: "
               [PStr (str_exn e)])
            (Msg "Error cargando archivo de propiedades" []) >>
          ret PNone)).

(** [self.NAME = properties.get(key)] *)
Definition load_property (properties : pyval) (name key : string) : M W unit :=
  let* v := lift (py_get properties key) in
  setattr name v.

Definition __init__ (os_type : string) : M W unit :=
  enter Init
    (let* version := _get_edge_version in
     setattr "version" (PStr version) >>
     setattr "os_type" (PStr os_type) >>
     setattr "url" (PStr (matched_url version os_type)) >>
     let* properties := import_data in
     load_property properties "DRIVER_NAME" "driver_name" >>
     load_property properties "BASE_URL" "base_url" >>
     load_property properties "EMAILS_TO_REPORT" "emails_to_report" >>
     load_property properties "CURRENT_PATH" "current_path" >>
     load_property properties "TOKEN_ID" "token_id" >>
     load_property properties "HOST" "host" >>
     load_property properties "TENANT_ID" "tenant_id" >>
     load_property properties "CLIENT_ID" "client_id" >>
     print_and_log (Msg stars []) "info" >>
     print_and_log (Msg "Driver Manager Started" []) "info" >>
     print_and_log (Msg stars []) "info" >>
     let* version := getattr "version" in
     let* os := getattr "os_type" in
     print_and_log (Msg "Edge version:  OStype: " [version; os]) "debug").

(** The condition of the comprehension of line 151:
    [u["Name"].split(".")[0] == self.version.split(".")[0]
       and self.os_type in u["Name"]]. *)
Definition is_candidate (u : pyval) : M W bool :=
  let* name := lift (py_getitem u "Name") in
  let* parts := lift (py_split_dot name) in
  let* major := lift (py_first parts) in
  let* version := getattr "version" in
  let* vparts := lift (py_split_dot version) in
  let* vmajor := lift (py_first vparts) in
  if String.eqb major vmajor then
    let* os := getattr "os_type" in
    let* name := lift (py_getitem u "Name") in
    lift (py_in os name)
  else ret false.

(** [[u for u in urls if is_candidate(u)]] *)
Fixpoint comprehension (urls : list pyval) : M W (list pyval) :=
  match urls with
  | [] => ret []
  | u :: rest =>
      let* keep := is_candidate u in
      let* tail := comprehension rest in
      ret (if keep then u :: tail else tail)
  end.

(** Lines 145-151: fetch the index, parse it, keep the candidates. *)
Definition scan : M W (list pyval) :=
  print_and_log (Msg "Downloading another version started" []) "info" >>
  let* base := getattr "BASE_URL" in
  let* res := http_get base in
  let* obj := call_ext EXmlParse (xmltodict_parse env (text res)) in
  (* json.loads(json.dumps(obj)) gives the same dictionaries, lists and
     strings back *)
  let results := obj in
  let* enumeration := lift (py_get results "EnumerationResults") in
  let* blobs := lift (py_get enumeration "Blobs") in
  let* urls := lift (py_get blobs "Blob") in
  let* items := lift (py_iter urls) in
  comprehension items.

(** Lines 153-164: the loop over [list_urls]. *)
Fixpoint try_candidates (list_urls : list pyval) : M W bool :=
  match list_urls with
  | [] => ret false
  | obj :: rest =>
      print_and_log (Msg "" [obj]) "debug" >>
      let* url := lift (py_get obj "Url") in
      setattr "url" url >>
      let* download_status := download in
      if download_status then
        let* test_status := test in
        if test_status then
          let* url := getattr "url" in
          print_and_log
            (Msg "Download finished and working of another version with url: "
               [url]) "info" >>
          let* version := lift (py_get obj "Name") in
          print_and_log (Msg "version: " [version]) "debug" >>
          ret true
        else try_candidates rest
      else try_candidates rest
  end.

Definition try_another_version : M W bool :=
  enter TryAnotherVersion
    (try_except
       (let* list_urls := scan in
        try_candidates list_urls)
       (fun e =>
          log_exception e >>
          print_and_log (Msg "Error downloading the alternative version" [])
            "error" >>
          send_mail
            (Msg "Fallo la descarga de otra version del driver, por favor revise manualmente. Error"
               [PStr (str_exn e)])
            (Msg "Error en descarga de Driver alternativo a version actual"
               []) >>
          ret false)).

Definition copy_to_path : M W unit :=
  enter CopyToPath
    (let* folders := getattr "BOT_FOLDERS" in
     let* items := lift (py_iter folders) in
     for_each items
       (fun folder =>
          let* exe := getattr "DRIVER_NAME" in
          call_ext (ECopy exe folder) (shutil_copy2 env exe folder)) >>
     let* folders := getattr "BOT_FOLDERS" in
     print_and_log (Msg "Copied to folders: " [folders]) "debug").

(** [exit()]: raises [SystemExit(None)]. *)
Definition py_exit {A} : M W A := raise (SystemExit None).

(** The [__main__] block. *)
Definition main : M W unit :=
  __init__ "win64" >>
  let* t1 := test in
  (if negb t1 then
     download >>
     let* t2 := test in
     if negb t2 then
       let* status := try_another_version in
       if negb status then
         print_and_log
           (Msg "Log error of version, notiftying via mail..." []) "debug" >>
         send_mail
           (Msg "No se pudo descargar ninguna version del driver, por favor, reviselo manualmente. "
              [])
           (Msg "Error en driver" []) >>
         py_exit
       else copy_to_path
     else copy_to_path
   else ret tt) >>
  print_and_log (Msg "Driver working, all right" []) "debug".

End Methods.

(** The state in which the interpreter starts the script. *)
Definition start {W} (w : W) : state W := State ∅ w [].

(** The status the process ends with: 0 after a normal end or
    [SystemExit(None)], the given code after [SystemExit(code)], 1 after
    an uncaught exception. *)
Definition exit_status {A} (o : outcome A) : Z :=
  match o with
  | Ok _ => 0
  | Raise (SystemExit None) => 0
  | Raise (SystemExit (Some n)) => n
  | Raise _ => 1
  end.

(** ** A simulated world, to run the script on concrete scenarios *)

Module Sim.

(** The world is the archive last extracted into the working directory
    ([None]: no driver binary there). *)
Definition disk : Type := option string.

Section Sim.

Variable registry : ext string.            (* the BLBeacon key *)
Variable properties : ext pyval.           (* properties.json *)
Variable server : string -> ext response.  (* the storage account *)
Variable parse : string -> ext pyval.      (* xmltodict on the index *)
Variable works : disk -> bool.             (* does the binary launch? *)

Definition env : Env disk := {|
  winreg_query := fun d => (registry, d);
  requests_get := fun u d => (server u, d);
  zip_extractall := fun c d =>
    if String.eqb c "" then (Failed "BadZipFile", d) else (Returned tt, Some c);
  webdriver_edge := fun _ d =>
    (if works d then Returned tt else Failed "WebDriverException", d);
  driver_close := fun d => (Returned tt, d);
  xmltodict_parse := fun t d => (parse t, d);
  json_load := fun _ d => (properties, d);
  shutil_copy2 := fun _ _ d => (Returned tt, d);
  o365 := fun _ d => (Returned (PObj "o365"), d)
|}.

End Sim.

Definition props : pyval :=
  PDict [("driver_name", PStr "msedgedriver.exe");
         ("base_url", PStr "https://index");
         ("emails_to_report", PList [PStr "ops@example.org"]);
         ("current_path", PStr "C:/bots/driver");
         ("token_id", PStr "token");
         ("host", PStr "host");
         ("tenant_id", PStr "tenant");
         ("client_id", PStr "client")].

Definition blob (name url : string) : pyval :=
  PDict [("Name", PStr name); ("Url", PStr url)].

Definition listing (blobs : pyval) : pyval :=
  PDict [("EnumerationResults", PDict [("Blobs", PDict [("Blob", blobs)])])].

Definition index : pyval :=
  listing (PList [blob "102.0.1245.7/edgedriver_win64.zip" "u102";
                  blob "103.0.1264.2/edgedriver_win64.zip" "u1";
                  blob "103.0.1264.2/edgedriver_linux64.zip" "ulinux";
                  blob "103.0.1264.9/edgedriver_win64.zip" "u2";
                  blob "103.0.1264.12/edgedriver_win64.zip" "u3";
                  blob "1030.0.1.1/edgedriver_win64.zip" "u1030"]).

(** A storage account that serves the listed archives and the index, and
    answers 404 elsewhere. *)
Definition server (u : string) : ext response :=
  if existsb (String.eqb u) ["u1"; "u2"; "u3"; "https://index"]
  then Returned (Response 200 u "index")
  else Returned (Response 404 "" "").

Definition version : string := "103.0.1264.37".

End Sim.

(** ** Vocabulary of the specification *)

(** The major-version prefix of a version string or of a blob name: the
    text before its first dot. *)
Fixpoint before_dot (s : string) : string :=
  match s with
  | EmptyString => EmptyString
  | String a rest =>
      if Ascii.eqb a "." then EmptyString else String a (before_dot rest)
  end.

(** A well-formed entry of the listing: a dictionary whose [Name] is a
    string. *)
Definition is_blob (u : pyval) : bool :=
  match u with
  | PDict d => match assoc "Name" d with
               | Some (PStr _) => true
               | _ => false
               end
  | _ => false
  end.

Definition is_dict (u : pyval) : bool :=
  match u with PDict _ => true | _ => false end.

(** The entry has the major version of the browser and names the
    operating system. *)
Definition selected (version os : string) (u : pyval) : bool :=
  match u with
  | PDict d => match assoc "Name" d with
               | Some (PStr n) =>
                   String.eqb (before_dot n) (before_dot version)
                   && contains os n
               | _ => false
               end
  | _ => false
  end.

(** The entries of a parsed index, [EnumerationResults/Blobs/Blob]. *)
Definition index_entries (doc : pyval) : option (list pyval) :=
  match py_get doc "EnumerationResults" with
  | Ok e => match py_get e "Blobs" with
            | Ok b => match py_get b "Blob" with
                      | Ok (PList l) => Some l
                      | _ => None
                      end
            | _ => None
            end
  | _ => None
  end.

Section Vocabulary.

Context {W : Type} (env : Env W).

(** The state right after method [m] has been entered. *)
Definition called (m : method) (s : state W) : state W :=
  State (self_dict s) (world s) (trace s ++ [ECall m]).

(** One candidate tried the way the specification words it: point the
    object at the candidate's URL, download, then smoke-test what was
    downloaded. *)
Definition attempt (obj : pyval) : M W bool :=
  print_and_log (Msg "" [obj]) "debug" >>
  let* url := lift (py_get obj "Url") in
  setattr "url" url >>
  let* downloaded := download env in
  if downloaded then test env else ret false.

(** Every candidate of the list is tried in turn and fails; the result is
    the state after the last one. *)
Fixpoint exhaust (candidates : list pyval) (s : state W) : option (state W) :=
  match candidates with
  | [] => Some s
  | c :: rest =>
      match attempt c s with
      | (Ok false, s') => exhaust rest s'
      | _ => None
      end
  end.

(** Any use a caller can make of the object. *)
Inductive invocation : Type :=
| CallInit (os_type : string)
| CallGetEdgeVersion
| CallDownload
| CallTest
| CallTryAnotherVersion
| CallPrintAndLog (m : message) (log_type : string)
| CallSendMail (m subject : message)
| CallImportData
| CallCopyToPath.

(** The state a call leaves behind, whether it returned or raised. *)
Definition after {A} (m : M W A) (s : state W) : state W := snd (m s).

Definition invoke (c : invocation) (s : state W) : state W :=
  match c with
  | CallInit os_type => after (__init__ env os_type) s
  | CallGetEdgeVersion => after (_get_edge_version env) s
  | CallDownload => after (download env) s
  | CallTest => after (test env) s
  | CallTryAnotherVersion => after (try_another_version env) s
  | CallPrintAndLog m log_type => after (print_and_log m log_type) s
  | CallSendMail m subject => after (send_mail env m subject) s
  | CallImportData => after (import_data env) s
  | CallCopyToPath => after (copy_to_path env) s
  end.

Definition invoke_all (calls : list invocation) (s : state W) : state W :=
  fold_left (fun s c => invoke c s) calls s.

End Vocabulary.

(** ** Relations between the state before and after a computation *)

(** The computation only added events accepted by [allowed]. *)
Definition traced {W} (allowed : event -> bool) (s s' : state W) : Prop :=
  exists t : list event,
    trace s' = (trace s ++ t)%list /\ forallb allowed t = true.

(** The computation left attribute [name] of the object as it was. *)
Definition keeps {W} (name : string) (s s' : state W) : Prop :=
  self_dict s' !! name = self_dict s !! name.

(** The computation did not touch the object at all. *)
Definition same_self {W} (s s' : state W) : Prop :=
  self_dict s' = self_dict s.

Definition preserves {W A} (R : relation (state W)) (m : M W A) : Prop :=
  forall s, R s (snd (m s)).

(** The computation never raises. *)
Definition total {W A} (m : M W A) : Prop :=
  forall s, exists a, fst (m s) = Ok a.

(** Whatever the computation raises, [except Exception] catches. *)
Definition catchable {W A} (m : M W A) : Prop :=
  forall s e, fst (m s) = Raise e -> is_Exception e = true.

Definition benign {A} (o : outcome A) : Prop :=
  forall e, o = Raise e -> is_Exception e = true.

(** What each method may add to the trace. *)
Definition is_log (e : event) : bool :=
  match e with EPrint _ _ | ELogger _ _ => true | _ => false end.

Definition emits_test (e : event) : bool :=
  match e with
  | ECall Test | ELaunch _ | EClose => true
  | _ => is_log e
  end.

Definition emits_download (e : event) : bool :=
  match e with
  | ECall Download | EHttpGet _ | EExtract => true
  | _ => is_log e
  end.

Definition emits_send_mail (e : event) : bool :=
  match e with
  | ECall SendMail | EO365 _ => true
  | _ => is_log e
  end.

Definition emits_scan (e : event) : bool :=
  match e with
  | EHttpGet _ | EXmlParse => true
  | _ => is_log e
  end.

Definition emits_candidates (e : event) : bool :=
  emits_download e || emits_test e.

Definition emits_try_another_version (e : event) : bool :=
  match e with
  | ECall TryAnotherVersion => true
  | _ => emits_scan e || emits_candidates e || emits_send_mail e
  end.

(** The attributes some method of the class assigns ([self.name = ...]
    occurs only in [__init__] and [try_another_version]). *)
Definition assigned (name : string) : bool :=
  existsb (String.eqb name)
    ["version"; "os_type"; "url"; "DRIVER_NAME"; "BASE_URL";
     "EMAILS_TO_REPORT"; "CURRENT_PATH"; "TOKEN_ID"; "HOST"; "TENANT_ID";
     "CLIENT_ID"].

(** ** Scenarios *)

Module Scenario.

Import Sim.

(** The matched archive is missing, the index lists three win64 builds of
    major version 103 (among others), and only the second one launches. *)
Definition second_works : Env disk :=
  env (Returned version) (Returned props) server (fun _ => Returned index)
    (fun d => bool_decide (d = Some "u2")).

(** The driver already in the working directory launches. *)
Definition already_working : Env disk :=
  env (Returned version) (Returned props) server (fun _ => Returned index)
    (fun d => bool_decide (d = Some "installed")).

(** Nothing that can be downloaded launches. *)
Definition nothing_works : Env disk :=
  env (Returned version) (Returned props) server (fun _ => Returned index)
    (fun _ => false).

(** The registry key of the browser is missing. *)
Definition no_browser : Env disk :=
  env (Failed "FileNotFoundError") (Returned props) server
    (fun _ => Returned index) (fun _ => false).

(** [properties.json] is missing. *)
Definition no_properties : Env disk :=
  env (Returned version) (Failed "FileNotFoundError") server
    (fun _ => Returned index) (fun _ => false).

(** The object once [__init__] has run in [second_works]. *)
Definition constructed : state disk :=
  after (__init__ second_works "win64") (start None).

End Scenario.

(** ** Statements too long to repeat *)

(** What [download] does, read off the answers of the server and of the
    archive: [t] is what the call adds to the trace. *)
Definition download_post {W} (env : Env W) (s : state W) (u : string)
    (t : list event) : Prop :=
  List.filter is_http t = [EHttpGet u] /\
  match requests_get env u (world s) with
  | (Returned r, w1) =>
      if status_code r =? 200 then
        match zip_extractall env (content r) w1 with
        | (Returned _, w2) =>
            fst (download env s) = Ok true /\
            count is_extract t = 1%nat /\
            world (after (download env) s) = w2
        | (Failed _, _) =>
            fst (download env s) = Ok false /\
            count (is_logger Error) t = 1%nat
        end
      else
        fst (download env s) = Ok false /\
        count is_extract t = 0%nat /\
        count (is_logger Warning) t = 1%nat
  | (Failed _, _) =>
      fst (download env s) = Ok false /\
      count is_extract t = 0%nat /\
      count (is_logger Error) t = 1%nat
  end.

Section Report.

Context {W : Type}.

(** Lines 160-163: what the loop does once a candidate has passed. *)
Definition report_success (obj : pyval) : M W bool :=
  let* url := getattr "url" in
  print_and_log
    (Msg "Download finished and working of another version with url: "
       [url]) "info" >>
  let* version := lift (py_get obj "Name") in
  print_and_log (Msg "version: " [version]) "debug" >>
  ret true.

End Report.

(** What the body of [download] may add to the trace once the method has
    been entered. *)
Definition emits_fetch (e : event) : bool :=
  match e with
  | EHttpGet _ | EExtract => true
  | _ => is_log e
  end.

(** How many times [download] has been entered so far. *)
Definition downloads {W} (s : state W) : nat :=
  count (is_call Download) (trace s).

(** How many times [send_mail] has been entered so far. *)
Definition mails {W} (s : state W) : nat :=
  count (is_call SendMail) (trace s).

(** ** States of the scenarios *)

Module Run.

Import Sim Scenario.

Definition u1 : pyval := blob "103.0.1264.2/edgedriver_win64.zip" "u1".
Definition u2 : pyval := blob "103.0.1264.9/edgedriver_win64.zip" "u2".
Definition u3 : pyval := blob "103.0.1264.12/edgedriver_win64.zip" "u3".

(** [second_works]: after the scan, after the first candidate has failed
    its smoke test, after the second one has passed. *)
Definition scanned : state disk :=
  after (scan second_works) (called TryAnotherVersion constructed).

Definition first_failed : state disk :=
  after (attempt second_works u1) scanned.

Definition second_passed : state disk :=
  after (attempt second_works u2) first_failed.

End Run.

(** How many times [copy_to_path] has been entered so far. *)
Definition copies {W} (s : state W) : nat :=
  count (is_call CopyToPath) (trace s).

(** How many requests have been made so far. *)
Definition requests {W} (s : state W) : nat :=
  count is_http (trace s).

(** What the body of [send_mail] may add to the trace once the method has
    been entered. *)
Definition emits_o365 (e : event) : bool :=
  match e with
  | EO365 _ => true
  | _ => is_log e
  end.

(** The last line of the script. *)
Definition all_right : message := Msg "Driver working, all right" [].

(** ** States of the scenario in which nothing works *)

Module Stuck.

Import Sim Scenario.

(** After the first smoke test, after the download of the matched
    version and the second smoke test, after the scan, after the last
    candidate. *)
Definition tested : state disk :=
  after (test nothing_works) constructed.

Definition retested : state disk :=
  after (test nothing_works) (after (download nothing_works) tested).

Definition rescanned : state disk :=
  after (scan nothing_works) (called TryAnotherVersion retested).

Definition exhausted : state disk :=
  after (try_candidates nothing_works [Run.u1; Run.u2; Run.u3]) rescanned.

End Stuck.

(** ** Further vocabulary *)

Definition is_print (e : event) : bool :=
  match e with EPrint _ _ => true | _ => false end.

Definition is_logged (e : event) : bool :=
  match e with ELogger _ _ => true | _ => false end.

Definition is_launch (e : event) : bool :=
  match e with ELaunch _ => true | _ => false end.

Definition is_close (e : event) : bool :=
  match e with EClose => true | _ => false end.

Definition is_copy (e : event) : bool :=
  match e with ECopy _ _ => true | _ => false end.

Definition is_send (e : event) : bool :=
  match e with EO365 (Send _ _) => true | _ => false end.

Definition is_authenticate (e : event) : bool :=
  match e with EO365 Authenticate => true | _ => false end.

(** How many times [test] has been entered so far. *)
Definition tests {W} (s : state W) : nat :=
  count (is_call Test) (trace s).

(** Any event at all. *)
Definition anything (e : event) : bool := true.

(** The computation printed as many lines as it handed to the logger. *)
Definition paired {W} (s s' : state W) : Prop :=
  exists t : list event,
    trace s' = (trace s ++ t)%list /\ count is_print t = count is_logged t.

(** Lines 57-64: the attribute each key of [properties.json] is stored
    in. *)
Definition property_table : list (string * string) :=
  [("DRIVER_NAME", "driver_name"); ("BASE_URL", "base_url");
   ("EMAILS_TO_REPORT", "emails_to_report");
   ("CURRENT_PATH", "current_path"); ("TOKEN_ID", "token_id");
   ("HOST", "host"); ("TENANT_ID", "tenant_id");
   ("CLIENT_ID", "client_id")].

(** ** More scenarios *)

Module Edge.

Import Sim Scenario.

(** [properties.json] holds a JSON array instead of an object. *)
Definition list_properties : Env disk :=
  env (Returned version) (Returned (PList [])) server
    (fun _ => Returned index) (fun _ => false).

(** [properties.json] holds an object without any of the keys. *)
Definition empty_properties : Env disk :=
  env (Returned version) (Returned (PDict [])) server
    (fun _ => Returned index) (fun _ => false).

(** The index is not XML. *)
Definition broken_index : Env disk :=
  env (Returned version) (Returned props) server
    (fun _ => Failed "ExpatError") (fun _ => false).

(** The index lists a single build: xmltodict gives its [Blob] as one
    dictionary, not as a list. *)
Definition single_blob : Env disk :=
  env (Returned version) (Returned props) server
    (fun _ => Returned (listing (blob "103.0.1264.2/edgedriver_win64.zip"
                                   "u1")))
    (fun _ => true).

(** One entry of the index has no [Name]. *)
Definition nameless_entry : Env disk :=
  env (Returned version) (Returned props) server
    (fun _ => Returned
                (listing (PList [blob "103.0.1264.2/edgedriver_win64.zip" "u1";
                                 PDict [("Url", PStr "u2")];
                                 blob "103.0.1264.12/edgedriver_win64.zip"
                                   "u3"])))
    (fun _ => true).

(** An object to which a caller has given the folders of the bots. *)
Definition with_folders : state disk :=
  State (<["BOT_FOLDERS" := PList [PStr "C:/bots/a"; PStr "C:/bots/b"]]>
           (self_dict constructed))
    None [].

(** An object whose [url] is [None]. *)
Definition without_url : state disk :=
  State (<["url" := PNone]> (self_dict constructed)) None [].

End Edge.

(** ** A world with a folder that cannot be written *)

Module Locked.

Import Sim Scenario.

Definition folder_b_is_read_only : Env disk := {|
  winreg_query := winreg_query second_works;
  requests_get := requests_get second_works;
  zip_extractall := zip_extractall second_works;
  webdriver_edge := webdriver_edge second_works;
  driver_close := driver_close second_works;
  xmltodict_parse := xmltodict_parse second_works;
  json_load := json_load second_works;
  shutil_copy2 := fun _ dst d =>
    match dst with
    | PStr f => if String.eqb f "C:/bots/b"
                then (Failed "PermissionError", d)
                else (Returned tt, d)
    | _ => (Failed "TypeError", d)
    end;
  o365 := o365 second_works
|}.

(** An object to which a caller has given three folders, the second of
    which is the read-only one. *)
Definition three_folders : state disk :=
  State (<["BOT_FOLDERS" := PList [PStr "C:/bots/a"; PStr "C:/bots/b";
                                   PStr "C:/bots/c"]]>
           (self_dict constructed))
    None [].

End Locked.

(** * Proofs *)

Open Scope list_scope.

(** ** Strings *)

Lemma split_on_nonempty c s : split_on c s <> [].
Proof.
  destruct s as [|a rest]; cbn [split_on]; [discriminate|].
  destruct (Ascii.eqb a c); [discriminate|].
  destruct (split_on c rest); discriminate.
Qed.

(** The first field of [s.split(".")] is the text before the first dot. *)
Lemma first_field s : py_first (split_on "." s) = Ok (before_dot s).
Proof.
  induction s as [|a rest IH]; cbn [split_on before_dot]; [reflexivity|].
  destruct (Ascii.eqb a "."); [reflexivity|].
  destruct (split_on "." rest) as [|h t]; cbn [py_first] in *; congruence.
Qed.

(** ** Counting events *)

Lemma count_app p (t1 t2 : list event) :
  count p (t1 ++ t2) = (count p t1 + count p t2)%nat.
Proof. unfold count. rewrite List.filter_app, length_app. reflexivity. Qed.

Lemma count_none p allowed (t : list event) :
  forallb allowed t = true ->
  (forall e, allowed e = true -> p e = false) ->
  count p t = 0%nat.
Proof.
  intros Hall Hp. unfold count.
  induction t as [|e t IH]; simpl in *; [reflexivity|].
  apply andb_prop in Hall as [He Ht].
  rewrite (Hp e He). auto.
Qed.

(** ** The relations are preorders *)

#[export] Instance traced_preorder {W} allowed : PreOrder (@traced W allowed).
Proof.
  split.
  - intros s. exists []. split; [symmetry; apply app_nil_r | reflexivity].
  - intros s1 s2 s3 [t1 [E1 H1]] [t2 [E2 H2]].
    exists (t1 ++ t2). split.
    + rewrite E2, E1, app_assoc. reflexivity.
    + rewrite forallb_app, H1, H2. reflexivity.
Qed.

#[export] Instance keeps_preorder {W} name : PreOrder (@keeps W name).
Proof.
  split.
  - intros s. reflexivity.
  - intros s1 s2 s3 H1 H2. unfold keeps in *. congruence.
Qed.

#[export] Instance same_self_preorder {W} : PreOrder (@same_self W).
Proof.
  split.
  - intros s. reflexivity.
  - intros s1 s2 s3 H1 H2. unfold same_self in *. congruence.
Qed.

Lemma traced_weaken {W} (a b : event -> bool) (s s' : state W) :
  (forall e, a e = true -> b e = true) -> traced a s s' -> traced b s s'.
Proof.
  intros Hab [t [E H]]. exists t. split; [exact E|].
  rewrite forallb_forall in *. auto.
Qed.

(** ** Rules for [preserves], [total] and [catchable] *)

Section Rules.

Context {W : Type} (R : relation (state W)) `{!PreOrder R}.

Lemma preserves_ret {A} (a : A) : preserves R (ret a).
Proof. intros s. reflexivity. Qed.

Lemma preserves_raise {A} e : preserves R (@raise W A e).
Proof. intros s. reflexivity. Qed.

Lemma preserves_lift {A} (o : outcome A) : preserves R (lift o).
Proof. intros s. reflexivity. Qed.

Lemma preserves_getattr name : preserves R (getattr name).
Proof.
  intros s. unfold getattr.
  destruct (self_dict s !! name); [reflexivity|].
  destruct (class_attr name); reflexivity.
Qed.

Lemma preserves_bind {A B} (m : M W A) (k : A -> M W B) :
  preserves R m -> (forall a, preserves R (k a)) -> preserves R (bind m k).
Proof.
  intros Hm Hk s. unfold bind.
  specialize (Hm s). destruct (m s) as [[a|e] s1]; simpl in *.
  - etransitivity; [exact Hm | apply Hk].
  - exact Hm.
Qed.

Lemma preserves_try {A} (body : M W A) handler :
  preserves R body -> (forall e, preserves R (handler e)) ->
  preserves R (try_except body handler).
Proof.
  intros Hb Hh s. unfold try_except.
  specialize (Hb s). destruct (body s) as [[a|e] s1]; simpl in *.
  - exact Hb.
  - destruct (is_Exception e); [|exact Hb].
    etransitivity; [exact Hb | apply Hh].
Qed.

Lemma preserves_for_each {A} (l : list A) (body : A -> M W unit) :
  (forall x, preserves R (body x)) -> preserves R (for_each l body).
Proof.
  intros Hb. induction l as [|x rest IH]; simpl.
  - apply preserves_ret.
  - apply preserves_bind; auto.
Qed.

End Rules.

Section Outcomes.

Context {W : Type}.

Lemma total_ret {A} (a : A) : total (@ret W A a).
Proof. intros s. exists a. reflexivity. Qed.

Lemma total_emit e : total (@emit W e).
Proof. intros s. exists tt. reflexivity. Qed.

Lemma total_setattr name v : total (@setattr W name v).
Proof. intros s. exists tt. reflexivity. Qed.

Lemma total_bind {A B} (m : M W A) (k : A -> M W B) :
  total m -> (forall a, total (k a)) -> total (bind m k).
Proof.
  intros Hm Hk s. unfold bind.
  destruct (Hm s) as [a Ha]. destruct (m s) as [o s1]; simpl in *; subst o.
  apply Hk.
Qed.

Lemma total_try {A} (body : M W A) handler :
  catchable body -> (forall e, total (handler e)) ->
  total (try_except body handler).
Proof.
  intros Hb Hh s. unfold try_except.
  specialize (Hb s). destruct (body s) as [[a|e] s1]; simpl in *.
  - exists a. reflexivity.
  - rewrite (Hb e eq_refl). apply Hh.
Qed.

Lemma catchable_total {A} (m : M W A) : total m -> catchable m.
Proof. intros Hm s e He. destruct (Hm s) as [a Ha]. congruence. Qed.

Lemma catchable_raise {A} e : is_Exception e = true -> catchable (@raise W A e).
Proof. intros He s e' H. simpl in H. congruence. Qed.

Lemma catchable_lift {A} (o : outcome A) : benign o -> catchable (@lift W A o).
Proof. intros Ho s e H. apply Ho. exact H. Qed.

Lemma catchable_getattr name : catchable (@getattr W name).
Proof.
  intros s e. unfold getattr.
  destruct (self_dict s !! name); [discriminate|].
  destruct (class_attr name); [discriminate|].
  simpl. intros [= <-]. reflexivity.
Qed.

Lemma catchable_call_ext {A} e (f : W -> ext A * W) : catchable (call_ext e f).
Proof.
  intros s e'. unfold call_ext.
  destruct (f (world s)) as [[a|msg] w]; simpl; [discriminate|].
  intros [= <-]. reflexivity.
Qed.

Lemma catchable_bind {A B} (m : M W A) (k : A -> M W B) :
  catchable m -> (forall a, catchable (k a)) -> catchable (bind m k).
Proof.
  intros Hm Hk s e. unfold bind.
  specialize (Hm s). destruct (m s) as [[a|e1] s1]; simpl in *.
  - apply Hk.
  - intros [= <-]. auto.
Qed.

Lemma catchable_try {A} (body : M W A) handler :
  catchable body -> (forall e, catchable (handler e)) ->
  catchable (try_except body handler).
Proof.
  intros Hb Hh s e. unfold try_except.
  specialize (Hb s). destruct (body s) as [[a|e1] s1]; simpl in *.
  - discriminate.
  - rewrite (Hb e1 eq_refl). apply Hh.
Qed.

End Outcomes.

(** ** What the primitive steps preserve *)

Section Primitives.

Context {W : Type}.

Lemma traced_emit allowed e :
  allowed e = true -> preserves (@traced W allowed) (emit e).
Proof.
  intros He s. exists [e]. split; [reflexivity|]. simpl. rewrite He. reflexivity.
Qed.

Lemma traced_call_ext {A} allowed e (f : W -> ext A * W) :
  allowed e = true -> preserves (traced allowed) (call_ext e f).
Proof.
  intros He s. exists [e]. unfold call_ext.
  destruct (f (world s)) as [[a|msg] w]; simpl; rewrite He; split; reflexivity.
Qed.

Lemma traced_setattr allowed name v :
  preserves (@traced W allowed) (setattr name v).
Proof. intros s. exists []. split; [symmetry; apply app_nil_r | reflexivity]. Qed.

Lemma same_self_emit e : preserves (@same_self W) (emit e).
Proof. intros s. reflexivity. Qed.

Lemma same_self_call_ext {A} e (f : W -> ext A * W) :
  preserves same_self (call_ext e f).
Proof.
  intros s. unfold call_ext.
  destruct (f (world s)) as [[a|msg] w]; reflexivity.
Qed.

Lemma keeps_setattr k name v :
  name <> k -> preserves (@keeps W k) (setattr name v).
Proof. intros Hne s. unfold keeps. simpl. apply lookup_insert_ne. exact Hne. Qed.

Lemma same_self_keeps {A} k (m : M W A) :
  preserves same_self m -> preserves (keeps k) m.
Proof. intros Hm s. unfold keeps. rewrite (Hm s). reflexivity. Qed.

Lemma preserves_weaken {A} (a b : event -> bool) (m : M W A) :
  (forall e, a e = true -> b e = true) ->
  preserves (traced a) m -> preserves (traced b) m.
Proof. intros Hab Hm s. eapply traced_weaken; [exact Hab | apply Hm]. Qed.

End Primitives.

(** The structural part of a frame proof. *)
Ltac rule lem := apply lem; try (solve [apply _]).

Ltac frame_step :=
  lazymatch goal with
  | |- preserves _ (bind _ _) => rule preserves_bind; [|intros ?]
  | |- preserves _ (try_except _ _) => rule preserves_try; [|intros ?]
  | |- preserves _ (ret _) => rule preserves_ret
  | |- preserves _ (raise _) => rule preserves_raise
  | |- preserves _ (lift _) => rule preserves_lift
  | |- preserves _ (getattr _) => rule preserves_getattr
  | |- preserves _ (for_each _ _) => rule preserves_for_each; intros ?
  | |- preserves _ (enter _ _) => unfold enter
  | |- preserves _ (if ?b then _ else _) => destruct b
  | |- preserves _ (match ?x with _ => _ end) => destruct x
  | |- preserves (traced _) (emit _) => apply traced_emit; reflexivity
  | |- preserves (traced _) (call_ext _ _) =>
      apply traced_call_ext; reflexivity
  | |- preserves (traced _) (setattr _ _) => apply traced_setattr
  | |- preserves same_self (emit _) => apply same_self_emit
  | |- preserves same_self (call_ext _ _) => apply same_self_call_ext
  | |- preserves (keeps _) (setattr _ _) => apply keeps_setattr; discriminate
  end.

(** An inclusion between two sets of events given by constructors. *)
Ltac included :=
  let e := fresh "e" in
  let H := fresh "H" in
  intros e H; destruct e as [[]| | | | | | | | | | |];
  cbn in *; solve [reflexivity | discriminate].

Section Frames.

Context {W : Type} (env : Env W).

Lemma print_and_log_traced m log_type :
  preserves (@traced W is_log) (print_and_log m log_type).
Proof. unfold print_and_log. repeat frame_step. Qed.

Lemma print_and_log_same_self m log_type :
  preserves (@same_self W) (print_and_log m log_type).
Proof. unfold print_and_log. repeat frame_step. Qed.

Lemma log_exception_traced e : preserves (@traced W is_log) (log_exception e).
Proof.
  unfold log_exception. repeat frame_step; apply print_and_log_traced.
Qed.

Lemma log_exception_same_self e :
  preserves (@same_self W) (log_exception e).
Proof.
  unfold log_exception. repeat frame_step; apply print_and_log_same_self.
Qed.

End Frames.

Create HintDb frame.

#[export] Hint Extern 1 (preserves (traced _) (print_and_log _ _)) =>
  eapply preserves_weaken; [|apply print_and_log_traced]; included : frame.
#[export] Hint Extern 1 (preserves (traced _) (log_exception _)) =>
  eapply preserves_weaken; [|apply log_exception_traced]; included : frame.
#[export] Hint Resolve same_self_emit same_self_call_ext
  print_and_log_same_self log_exception_same_self : frame.
#[export] Hint Extern 5 (preserves (keeps _) _) =>
  apply same_self_keeps : frame.

Ltac frame := repeat first [frame_step | solve [auto with frame]].

Section MethodFrames.

Context {W : Type} (env : Env W).

Lemma get_edge_version_same_self :
  preserves same_self (_get_edge_version env).
Proof. unfold _get_edge_version. frame. Qed.

Lemma test_traced : preserves (traced emits_test) (test env).
Proof. unfold test. frame. Qed.

Lemma test_same_self : preserves same_self (test env).
Proof. unfold test. frame. Qed.

Lemma http_get_traced url : preserves (traced is_http) (http_get env url).
Proof. unfold http_get. frame. Qed.

Lemma http_get_same_self url : preserves same_self (http_get env url).
Proof. unfold http_get. frame. Qed.

Lemma download_traced : preserves (traced emits_download) (download env).
Proof.
  unfold download. frame;
    (eapply preserves_weaken; [|apply http_get_traced]; included).
Qed.

Lemma download_same_self : preserves same_self (download env).
Proof. unfold download. frame; apply http_get_same_self. Qed.

Lemma send_mail_traced m subject :
  preserves (traced emits_send_mail) (send_mail env m subject).
Proof. unfold send_mail. frame. Qed.

Lemma send_mail_same_self m subject :
  preserves same_self (send_mail env m subject).
Proof. unfold send_mail. frame. Qed.

Lemma import_data_same_self : preserves same_self (import_data env).
Proof. unfold import_data. frame. apply send_mail_same_self. Qed.

Lemma copy_to_path_same_self : preserves same_self (copy_to_path env).
Proof. unfold copy_to_path. frame. Qed.

Lemma is_candidate_traced allowed (u : pyval) :
  preserves (@traced W allowed) (is_candidate u).
Proof. unfold is_candidate. frame. Qed.

Lemma is_candidate_same_self (u : pyval) :
  preserves (@same_self W) (is_candidate u).
Proof. unfold is_candidate. frame. Qed.

Lemma comprehension_traced allowed (urls : list pyval) :
  preserves (@traced W allowed) (comprehension urls).
Proof.
  induction urls as [|u rest IH]; cbn [comprehension]; frame.
  apply is_candidate_traced.
Qed.

Lemma comprehension_same_self (urls : list pyval) :
  preserves (@same_self W) (comprehension urls).
Proof.
  induction urls as [|u rest IH]; cbn [comprehension]; frame.
  apply is_candidate_same_self.
Qed.

Lemma scan_traced : preserves (traced emits_scan) (scan env).
Proof.
  unfold scan. frame.
  - eapply preserves_weaken; [|apply http_get_traced]; included.
  - apply comprehension_traced.
Qed.

Lemma scan_same_self : preserves same_self (scan env).
Proof.
  unfold scan. frame.
  - apply http_get_same_self.
  - apply comprehension_same_self.
Qed.

Lemma try_candidates_traced (l : list pyval) :
  preserves (traced emits_candidates) (try_candidates env l).
Proof.
  induction l as [|obj rest IH]; cbn [try_candidates]; frame.
  - eapply preserves_weaken; [|apply download_traced]; included.
  - eapply preserves_weaken; [|apply test_traced]; included.
Qed.

Lemma try_another_version_traced :
  preserves (traced emits_try_another_version) (try_another_version env).
Proof.
  unfold try_another_version. frame.
  - eapply preserves_weaken; [|apply scan_traced]; included.
  - eapply preserves_weaken; [|apply try_candidates_traced]; included.
  - eapply preserves_weaken; [|apply send_mail_traced]; included.
Qed.

End MethodFrames.

(** ** Attributes no method assigns stay absent *)

Ltac keeps_step :=
  lazymatch goal with
  | |- preserves (keeps _) (setattr _ _) =>
      apply keeps_setattr;
      first [ discriminate
            | intros <-;
              match goal with
              | H : assigned _ = false |- _ => vm_compute in H; discriminate H
              end ]
  | |- preserves (keeps _) (load_property _ _ _) => unfold load_property
  | |- _ => frame_step
  end.

Ltac keeps_frame := repeat first [keeps_step | solve [auto with frame]].

#[export] Hint Resolve get_edge_version_same_self test_same_self
  download_same_self send_mail_same_self import_data_same_self
  copy_to_path_same_self scan_same_self : frame.

Section Unassigned.

Context {W : Type} (env : Env W) (k : string) (Hk : assigned k = false).

Lemma init_keeps os_type : preserves (keeps k) (__init__ env os_type).
Proof using Hk. unfold __init__. keeps_frame. Qed.

Lemma try_candidates_keeps (l : list pyval) :
  preserves (keeps k) (try_candidates env l).
Proof using Hk.
  induction l as [|obj rest IH]; cbn [try_candidates]; keeps_frame.
Qed.

Lemma try_another_version_keeps :
  preserves (keeps k) (try_another_version env).
Proof using Hk.
  unfold try_another_version. keeps_frame. apply try_candidates_keeps.
Qed.

Lemma invoke_keeps (c : invocation) (s : state W) : keeps k s (invoke env c s).
Proof using Hk.
  destruct c; cbn [invoke]; unfold after.
  - apply init_keeps.
  - apply same_self_keeps, get_edge_version_same_self.
  - apply same_self_keeps, download_same_self.
  - apply same_self_keeps, test_same_self.
  - apply try_another_version_keeps.
  - apply same_self_keeps, print_and_log_same_self.
  - apply same_self_keeps, send_mail_same_self.
  - apply same_self_keeps, import_data_same_self.
  - apply same_self_keeps, copy_to_path_same_self.
Qed.

Lemma invoke_all_keeps (calls : list invocation) (s : state W) :
  keeps k s (invoke_all env calls s).
Proof using Hk.
  revert s. induction calls as [|c rest IH]; intros s; cbn.
  - reflexivity.
  - etransitivity; [apply (invoke_keeps c) | apply IH].
Qed.

(** On an object obtained from a fresh one by any calls, the attribute
    is not in the instance dictionary. *)
Lemma unassigned_absent (calls : list invocation) (w : W) :
  self_dict (invoke_all env calls (start w)) !! k = None.
Proof using Hk.
  rewrite (invoke_all_keeps calls (start w)). apply lookup_empty.
Qed.

End Unassigned.

(** ** What can be raised *)

Lemma py_get_benign v k : benign (py_get v k).
Proof. destruct v; intros e [= <-]; reflexivity. Qed.

Lemma py_getitem_benign v k : benign (py_getitem v k).
Proof.
  destruct v; cbn; try (intros e [= <-]; reflexivity).
  destruct (assoc k d); intros e [= <-]; reflexivity.
Qed.

Lemma py_iter_benign v : benign (py_iter v).
Proof. destruct v; intros e [= <-]; reflexivity. Qed.

Lemma py_split_dot_benign v : benign (py_split_dot v).
Proof. destruct v; intros e [= <-]; reflexivity. Qed.

Lemma py_first_benign l : benign (py_first l).
Proof. destruct l; intros e [= <-]; reflexivity. Qed.

Lemma py_in_benign a b : benign (py_in a b).
Proof. destruct b, a; intros e [= <-]; reflexivity. Qed.

#[export] Hint Resolve py_get_benign py_getitem_benign py_iter_benign
  py_split_dot_benign py_first_benign py_in_benign : frame.

Ltac catch_step :=
  lazymatch goal with
  | |- catchable (bind _ _) => apply catchable_bind; [|intros ?]
  | |- catchable (try_except _ _) => apply catchable_try; [|intros ?]
  | |- catchable (ret _) => apply catchable_total, total_ret
  | |- catchable (raise _) => apply catchable_raise; reflexivity
  | |- catchable (lift _) => apply catchable_lift
  | |- catchable (getattr _) => apply catchable_getattr
  | |- catchable (setattr _ _) => apply catchable_total, total_setattr
  | |- catchable (emit _) => apply catchable_total, total_emit
  | |- catchable (call_ext _ _) => apply catchable_call_ext
  | |- catchable (enter _ _) => unfold enter
  | |- catchable (if ?b then _ else _) => destruct b
  | |- catchable (match ?x with _ => _ end) => destruct x
  | |- total (bind _ _) => apply total_bind; [|intros ?]
  | |- total (ret _) => apply total_ret
  | |- total (emit _) => apply total_emit
  | |- total (setattr _ _) => apply total_setattr
  | |- total (try_except _ _) => apply total_try; [|intros ?]
  | |- total (enter _ _) => unfold enter
  | |- total (if ?b then _ else _) => destruct b
  end.

Ltac catch := repeat first [catch_step | solve [auto with frame]].

Section Raising.

Context {W : Type} (env : Env W).

Lemma print_and_log_total m log_type : total (@print_and_log W m log_type).
Proof. unfold print_and_log. catch. Qed.

Lemma log_exception_total e : total (@log_exception W e).
Proof. unfold log_exception. catch; apply print_and_log_total. Qed.

End Raising.

#[export] Hint Resolve print_and_log_total log_exception_total : frame.
#[export] Hint Extern 5 (catchable _) => apply catchable_total : frame.

Section MethodOutcomes.

Context {W : Type} (env : Env W).

Lemma http_get_catchable url : catchable (http_get env url).
Proof. unfold http_get. catch. Qed.

(** [test] never raises. *)
Lemma test_total : total (test env).
Proof. unfold test. catch. Qed.

(** [send_mail] never raises. *)
Lemma send_mail_total m subject : total (send_mail env m subject).
Proof. unfold send_mail. catch. Qed.

Lemma download_catchable : catchable (download env).
Proof. unfold download. catch; apply http_get_catchable. Qed.

Lemma is_candidate_catchable (u : pyval) : catchable (@is_candidate W u).
Proof. unfold is_candidate. catch. Qed.

Lemma comprehension_catchable (urls : list pyval) :
  catchable (@comprehension W urls).
Proof.
  induction urls as [|u rest IH]; cbn [comprehension]; catch.
  apply is_candidate_catchable.
Qed.

Lemma scan_catchable : catchable (scan env).
Proof.
  unfold scan. catch.
  - apply http_get_catchable.
  - apply comprehension_catchable.
Qed.

Lemma try_candidates_catchable (l : list pyval) :
  catchable (try_candidates env l).
Proof.
  induction l as [|obj rest IH]; cbn [try_candidates]; catch.
  - apply download_catchable.
  - apply catchable_total, test_total.
Qed.

(** [try_another_version] never raises. *)
Lemma try_another_version_total : total (try_another_version env).
Proof.
  unfold try_another_version. catch.
  - apply scan_catchable.
  - apply try_candidates_catchable.
  - apply send_mail_total.
Qed.

End MethodOutcomes.

(** ** The methods one by one *)

(** Unfolds the monad so that a run can be followed step by step. *)
Ltac unfold_monad :=
  unfold log_exception, print_and_log, http_get, py_exit, enter, after,
    called;
  unfold try_except, bind, emit, getattr, setattr, call_ext, ret, raise,
    lift.

(** C8: [download] makes one GET of [self.url]; on status 200 it extracts
    the archive and returns [True]; on another status, or when the request
    or the extraction raises, it logs and returns [False]. *)
Theorem download_spec {W} (env : Env W) (s : state W) (u : string) :
  self_dict s !! "url" = Some (PStr u) ->
  exists t, trace (after (download env) s) = trace s ++ t /\
            download_post env s u t.
Proof.
  intros Hu. unfold download_post, download. unfold_monad.
  cbn. rewrite Hu. cbn. rewrite Hu. cbn.
  destruct (requests_get env u (world s)) as [[r|msg] w1]; cbn.
  - destruct (status_code r =? 200) eqn:E; cbn.
    + destruct (zip_extractall env (content r) w1) as [[[]|msg] w2]; cbn.
      * apply Z.eqb_eq in E. unfold ok. rewrite E. cbn.
        rewrite <- !app_assoc. eexists. split; [reflexivity|].
        cbn. auto.
      * rewrite Hu. cbn.
        rewrite <- !app_assoc. eexists. split; [reflexivity|].
        cbn. auto.
    + rewrite Hu. cbn.
      rewrite <- !app_assoc. eexists. split; [reflexivity|].
      cbn. auto.
  - rewrite Hu. cbn.
    rewrite <- !app_assoc. eexists. split; [reflexivity|].
    cbn. auto.
Qed.

Lemma download_spec_witness :
  self_dict Scenario.constructed !! "url"
    = Some (PStr (matched_url Sim.version "win64")) /\
  exists t,
    trace (after (download Scenario.second_works) Scenario.constructed)
      = trace Scenario.constructed ++ t /\
    download_post Scenario.second_works Scenario.constructed
      (matched_url Sim.version "win64") t.
Proof.
  split.
  - vm_compute. reflexivity.
  - apply (download_spec Scenario.second_works Scenario.constructed
             (matched_url Sim.version "win64")).
    vm_compute. reflexivity.
Defined.

(** C9: [send_mail] never raises; and since [self.token_mail] is never
    assigned, on every object it is caught before the first O365 call:
    the world is left as it was and only log lines are added. *)
Theorem send_mail_best_effort {W} (env : Env W) :
  (forall s m subject, fst (send_mail env m subject s) = Ok tt) /\
  (forall w calls m subject,
     let s := invoke_all env calls (start w) in
     exists t,
       send_mail env m subject s
       = (Ok tt, State (self_dict s) (world s)
                   (trace s ++ ECall SendMail :: t)) /\
       forallb is_log t = true /\
       count (is_logger Debug) t = 2%nat).
Proof.
  split.
  - intros s m subject.
    destruct (send_mail_total env m subject s) as [[] H]. exact H.
  - intros w calls m subject s.
    pose proof (unassigned_absent env "token_mail" eq_refl calls w) as Ht.
    fold s in Ht.
    unfold send_mail. unfold_monad. cbn.
    destruct (self_dict s !! "CLIENT_ID") as [c|]; cbn.
    + rewrite Ht. simpl. rewrite <- !app_assoc. simpl. eexists.
      split; [reflexivity|]. simpl. auto.
    + rewrite <- !app_assoc. simpl. eexists.
      split; [reflexivity|]. simpl. auto.
Qed.

(** ** The candidate filter *)

Section Filter.

Context {W : Type} (env : Env W).

Lemma is_candidate_selected (s : state W) version os (u : pyval) :
  self_dict s !! "version" = Some (PStr version) ->
  self_dict s !! "os_type" = Some (PStr os) ->
  is_blob u = true ->
  is_candidate u s = (Ok (selected version os u), s).
Proof.
  intros Hv Ho Hu. destruct u as [| | | | |d|]; try discriminate.
  unfold is_blob in Hu. unfold selected, is_candidate. unfold_monad.
  cbn [py_getitem].
  destruct (assoc "Name" d) as [[| | |n| | |]|]; try discriminate.
  cbn [py_split_dot]. rewrite first_field, Hv.
  cbn [py_split_dot]. rewrite first_field.
  destruct (String.eqb (before_dot n) (before_dot version)); [|reflexivity].
  rewrite Ho. reflexivity.
Qed.

Lemma comprehension_filter (s : state W) version os (blobs : list pyval) :
  self_dict s !! "version" = Some (PStr version) ->
  self_dict s !! "os_type" = Some (PStr os) ->
  forallb is_blob blobs = true ->
  comprehension blobs s = (Ok (List.filter (selected version os) blobs), s).
Proof.
  intros Hv Ho. induction blobs as [|u rest IH]; intros Hall.
  - reflexivity.
  - cbn [forallb] in Hall. apply andb_prop in Hall as [Hu Hrest].
    cbn [comprehension List.filter]. unfold bind at 1.
    rewrite (is_candidate_selected s version os u Hv Ho Hu).
    unfold bind. rewrite (IH Hrest). unfold ret.
    destruct (selected version os u); reflexivity.
Qed.

End Filter.

(** C4: on a listing of well-formed entries, the scan keeps exactly the
    entries whose name has the browser's major version before its first
    dot and contains the OS tag, in the order of the listing. *)
Theorem scan_selects {W} (env : Env W) (s : state W)
    (version os base : string) (res : response) (w1 w2 : W) (doc : pyval)
    (blobs : list pyval) :
  self_dict s !! "version" = Some (PStr version) ->
  self_dict s !! "os_type" = Some (PStr os) ->
  self_dict s !! "BASE_URL" = Some (PStr base) ->
  requests_get env base (world s) = (Returned res, w1) ->
  xmltodict_parse env (text res) w1 = (Returned doc, w2) ->
  index_entries doc = Some blobs ->
  forallb is_blob blobs = true ->
  fst (scan env s) = Ok (List.filter (selected version os) blobs).
Proof.
  intros Hv Ho Hb Hget Hparse Hdoc Hall.
  unfold index_entries in Hdoc.
  destruct (py_get doc "EnumerationResults") as [e|] eqn:E1; [|discriminate].
  destruct (py_get e "Blobs") as [b|] eqn:E2; [|discriminate].
  destruct (py_get b "Blob") as [[| | | |l| |]|] eqn:E3; try discriminate.
  injection Hdoc as ->.
  unfold scan. unfold_monad. cbn.
  rewrite Hb. cbn. rewrite Hget. cbn. rewrite Hparse. cbn.
  rewrite E1, E2, E3. cbn.
  rewrite (comprehension_filter _ version os blobs); auto.
Qed.

Lemma scan_selects_witness :
  fst (scan Scenario.second_works Scenario.constructed)
  = Ok [Sim.blob "103.0.1264.2/edgedriver_win64.zip" "u1";
        Sim.blob "103.0.1264.9/edgedriver_win64.zip" "u2";
        Sim.blob "103.0.1264.12/edgedriver_win64.zip" "u3"].
Proof.
  apply (scan_selects Scenario.second_works Scenario.constructed
           Sim.version "win64" "https://index"
           (Response 200 "https://index" "index") None None Sim.index
           [Sim.blob "102.0.1245.7/edgedriver_win64.zip" "u102";
            Sim.blob "103.0.1264.2/edgedriver_win64.zip" "u1";
            Sim.blob "103.0.1264.2/edgedriver_linux64.zip" "ulinux";
            Sim.blob "103.0.1264.9/edgedriver_win64.zip" "u2";
            Sim.blob "103.0.1264.12/edgedriver_win64.zip" "u3";
            Sim.blob "1030.0.1.1/edgedriver_win64.zip" "u1030"]);
    vm_compute; reflexivity.
Defined.

(** ** The loop over the candidates *)

Section Loop.

Context {W : Type} (env : Env W).

(** One turn of the loop is one [attempt]. *)
Lemma try_candidates_turn (obj : pyval) (rest : list pyval) (s : state W) :
  try_candidates env (obj :: rest) s
  = match attempt env obj s with
    | (Ok true, s') => report_success obj s'
    | (Ok false, s') => try_candidates env rest s'
    | (Raise e, s') => (Raise e, s')
    end.
Proof.
  cbn [try_candidates]. unfold attempt, report_success.
  unfold bind at 1 2 3 4. unfold bind at 6 7 8 9.
  destruct (print_and_log (Msg "" [obj]) "debug" s) as [[[]|e] s1];
    [|reflexivity].
  unfold lift at 1 3.
  destruct (py_get obj "Url") as [url|e]; [|reflexivity].
  unfold setattr at 1 2.
  destruct (download env _) as [[[]|e] s2]; try reflexivity.
  unfold bind at 1.
  destruct (test env s2) as [[[]|e] s3]; reflexivity.
Qed.

Lemma download_returns (s : state W) (v : pyval) :
  self_dict s !! "url" = Some v -> exists b, fst (download env s) = Ok b.
Proof.
  intros Hu. unfold download. unfold_monad. cbn. rewrite Hu. cbn.
  rewrite Hu. cbn.
  destruct v as [| | |u| | |]; cbn; try (rewrite Hu; cbn; eauto).
  destruct (requests_get env u (world s)) as [[r|msg] w1]; cbn.
  - destruct (status_code r =? 200); cbn.
    + destruct (zip_extractall env (content r) w1) as [[[]|msg] w2]; cbn.
      * eauto.
      * rewrite Hu. cbn. eauto.
    + rewrite Hu. cbn. eauto.
  - rewrite Hu. cbn. eauto.
Qed.

(** After an attempt that returned, the candidate is a dictionary and
    [self.url] is its [Url]. *)
Lemma attempt_url (obj : pyval) (s s' : state W) (b : bool) :
  attempt env obj s = (Ok b, s') ->
  exists d, obj = PDict d /\
            self_dict s' !! "url" = Some (default PNone (assoc "Url" d)).
Proof.
  unfold attempt. unfold bind at 1.
  pose proof (print_and_log_same_self (Msg "" [obj]) "debug" s) as Hlog.
  destruct (print_and_log (Msg "" [obj]) "debug" s) as [[[]|e] s1];
    [|discriminate].
  unfold bind at 1. unfold lift.
  destruct obj as [| | | | |d|]; try discriminate.
  cbn [py_get]. unfold bind at 1. unfold setattr at 1.
  set (s2 := State _ _ _). unfold bind.
  pose proof (download_same_self env s2) as Hd.
  destruct (download env s2) as [[[]|e] s3]; try discriminate.
  - pose proof (test_same_self env s3) as Ht.
    destruct (test env s3) as [[b'|e] s4]; [|discriminate].
    intros [= <- <-]. exists d. split; [reflexivity|].
    cbn in *. unfold same_self in *. rewrite Ht, Hd. subst s2. cbn.
    apply lookup_insert_eq.
  - unfold ret. intros [= <- <-]. exists d. split; [reflexivity|].
    cbn in *. unfold same_self in *. rewrite Hd. subst s2. cbn.
    apply lookup_insert_eq.
Qed.

(** An attempt on a dictionary never raises. *)
Lemma attempt_returns (d : list (string * pyval)) (s : state W) :
  exists b, fst (attempt env (PDict d) s) = Ok b.
Proof.
  unfold attempt. unfold bind at 1.
  destruct (print_and_log_total (Msg "" [PDict d]) "debug" s) as [[] Hlog].
  destruct (print_and_log _ "debug" s) as [o s1]. cbn in Hlog. subst o.
  unfold bind at 1. unfold lift. cbn [py_get].
  unfold bind at 1. unfold setattr at 1. set (s2 := State _ _ _).
  unfold bind.
  destruct (download_returns s2 (default PNone (assoc "Url" d))) as [b Hb].
  { subst s2. cbn. apply lookup_insert_eq. }
  destruct (download env s2) as [o s3]. cbn in Hb. subst o.
  destruct b; [|eexists; reflexivity].
  destruct (test_total env s3) as [b Hb]. exact (ex_intro _ b Hb).
Qed.

End Loop.

Section Exhaustion.

Context {W : Type} (env : Env W).

Lemma enter_run {A} (m : method) (body : M W A) (s : state W) :
  enter m body s = body (called m s).
Proof. reflexivity. Qed.

Lemma report_success_run (d : list (string * pyval)) (v : pyval)
    (s : state W) :
  self_dict s !! "url" = Some v ->
  exists t, report_success (PDict d) s
            = (Ok true, State (self_dict s) (world s) (trace s ++ t)) /\
            forallb is_log t = true.
Proof.
  intros Hu. unfold report_success. unfold_monad. cbn. rewrite Hu. cbn.
  rewrite <- !app_assoc. cbn. eexists. split; reflexivity.
Qed.

Lemma report_success_true (obj : pyval) (s : state W) :
  fst (report_success obj s) <> Ok false.
Proof.
  unfold report_success. unfold_monad. cbn.
  destruct (self_dict s !! "url"); cbn.
  - destruct (py_get obj "Name"); cbn; discriminate.
  - destruct (py_get obj "Name"); cbn; discriminate.
Qed.

(** When every candidate fails, the loop ends with [False] in the state
    the last attempt left. *)
Lemma try_candidates_exhaust (cands : list pyval) (s s' : state W) :
  exhaust env cands s = Some s' ->
  try_candidates env cands s = (Ok false, s').
Proof.
  revert s. induction cands as [|c rest IH]; intros s; cbn [exhaust].
  - intros [= <-]. reflexivity.
  - rewrite try_candidates_turn.
    destruct (attempt env c s) as [[[]|e] s1]; try discriminate. apply IH.
Qed.

(** The loop stops at the first candidate that passes. *)
Lemma try_candidates_hit (pre post : list pyval) (c : pyval)
    (s s1 s2 : state W) :
  exhaust env pre s = Some s1 ->
  attempt env c s1 = (Ok true, s2) ->
  try_candidates env (pre ++ c :: post) s = report_success c s2.
Proof.
  revert s. induction pre as [|p rest IH]; intros s; cbn [exhaust app].
  - intros [= <-] Hc. rewrite try_candidates_turn, Hc. reflexivity.
  - rewrite try_candidates_turn.
    destruct (attempt env p s) as [[[]|e] s']; try discriminate. apply IH.
Qed.

Lemma download_enters_once (s : state W) :
  downloads (after (download env) s) = (downloads s + 1)%nat.
Proof.
  unfold download, after. rewrite enter_run.
  set (body := try_except _ _).
  assert (Hbody : preserves (traced emits_fetch) body).
  { subst body. frame.
    eapply preserves_weaken; [|apply http_get_traced]; included. }
  destruct (Hbody (called Download s)) as [t [Et Ht]].
  unfold downloads. rewrite Et. cbn [called trace].
  rewrite !count_app. rewrite (count_none _ _ _ Ht); [cbn; lia|].
  intros [[]| | | | | | | | | | |]; cbn; congruence.
Qed.

Lemma test_enters_no_download (s : state W) :
  downloads (after (test env) s) = downloads s.
Proof.
  destruct (test_traced env s) as [t [Et Ht]].
  unfold downloads, after. rewrite Et, count_app.
  rewrite (count_none _ _ _ Ht); [lia|].
  intros [[]| | | | | | | | | | |]; cbn; congruence.
Qed.

(** Every attempt that returns has entered [download] exactly once. *)
Lemma attempt_downloads_once (obj : pyval) (s s' : state W) (b : bool) :
  attempt env obj s = (Ok b, s') -> downloads s' = (downloads s + 1)%nat.
Proof.
  unfold attempt. unfold bind at 1.
  destruct (print_and_log_traced (Msg "" [obj]) "debug" s) as [t [Et Ht]].
  destruct (print_and_log (Msg "" [obj]) "debug" s) as [[[]|e] s1];
    [|discriminate].
  unfold bind at 1. unfold lift.
  destruct (py_get obj "Url") as [url|e]; [|discriminate].
  unfold bind at 1. unfold setattr at 1. set (s2 := State _ _ _).
  unfold bind.
  assert (H2 : downloads s2 = downloads s).
  { subst s2. unfold downloads. cbn [trace snd] in *.
    rewrite Et, count_app, (count_none _ _ _ Ht); [lia|].
    intros [[]| | | | | | | | | | |]; cbn; congruence. }
  pose proof (download_enters_once s2) as Hd. unfold after in Hd.
  destruct (download env s2) as [[[]|e] s3]; cbn [snd] in Hd;
    try discriminate.
  - pose proof (test_enters_no_download s3) as Hs. unfold after in Hs.
    destruct (test env s3) as [[b'|e] s4]; [|discriminate].
    intros [= <- <-]. cbn [snd] in Hs. lia.
  - unfold ret. intros [= <- <-]. lia.
Qed.

Lemma exhaust_downloads (cands : list pyval) (s s' : state W) :
  exhaust env cands s = Some s' ->
  downloads s' = (downloads s + length cands)%nat.
Proof.
  revert s. induction cands as [|c rest IH]; intros s; cbn [exhaust length].
  - intros [= <-]. lia.
  - destruct (attempt env c s) as [[[]|e] s1] eqn:E; try discriminate.
    intros H. rewrite (IH _ H), (attempt_downloads_once _ _ _ _ E). lia.
Qed.

End Exhaustion.

Section Candidates.

Context {W : Type} (env : Env W).

Lemma is_candidate_dict (u : pyval) (s s' : state W) :
  is_candidate u s = (Ok true, s') -> is_dict u = true.
Proof.
  unfold is_candidate, bind, lift.
  destruct u; cbn [py_getitem]; try discriminate. reflexivity.
Qed.

Lemma comprehension_dicts (urls l : list pyval) (s s' : state W) :
  comprehension urls s = (Ok l, s') -> forallb is_dict l = true.
Proof.
  revert l s. induction urls as [|u rest IH]; intros l s; cbn [comprehension].
  - intros [= <- <-]. reflexivity.
  - unfold bind at 1.
    destruct (is_candidate u s) as [[keep|e] s1] eqn:Eu; [|discriminate].
    unfold bind at 1.
    destruct (comprehension rest s1) as [[tail|e] s2] eqn:Er; [|discriminate].
    unfold ret. intros [= <- <-]. specialize (IH _ _ Er).
    destruct keep; [|exact IH].
    cbn [forallb]. rewrite (is_candidate_dict _ _ _ Eu), IH. reflexivity.
Qed.

(** Whatever the index contains, the candidates the scan returns are
    dictionaries. *)
Lemma scan_dicts (cands : list pyval) (s s' : state W) :
  scan env s = (Ok cands, s') -> forallb is_dict cands = true.
Proof.
  unfold scan, bind, lift.
  destruct (print_and_log _ _ s) as [[[]|?] ?]; [|discriminate].
  destruct (getattr "BASE_URL" _) as [[base|?] ?]; [|discriminate].
  destruct (http_get env base _) as [[res|?] ?]; [|discriminate].
  destruct (call_ext _ _ _) as [[obj|?] ?]; [|discriminate].
  destruct (py_get obj _) as [e|?]; [|discriminate].
  destruct (py_get e _) as [b|?]; [|discriminate].
  destruct (py_get b _) as [urls|?]; [|discriminate].
  destruct (py_iter urls) as [items|?]; [|discriminate].
  apply comprehension_dicts.
Qed.

(** On dictionaries the loop never raises. *)
Lemma try_candidates_returns (cands : list pyval) (s : state W) :
  forallb is_dict cands = true ->
  exists b s', try_candidates env cands s = (Ok b, s').
Proof.
  revert s. induction cands as [|c rest IH]; intros s Hall.
  - exists false, s. reflexivity.
  - cbn [forallb] in Hall. apply andb_prop in Hall as [Hc Hrest].
    destruct c as [| | | | |d|]; try discriminate.
    rewrite try_candidates_turn.
    destruct (attempt_returns env d s) as [b Hb].
    destruct (attempt env (PDict d) s) as [o s1] eqn:Ea.
    cbn [fst] in Hb. subst o. destruct b; [|apply IH, Hrest].
    destruct (attempt_url env _ _ _ _ Ea) as [d' [_ Hu]].
    destruct (report_success_run d _ s1 Hu) as [t [Ht _]].
    rewrite Ht. eauto.
Qed.

(** When the loop gives up, [self.url] is the [Url] of the last
    candidate. *)
Lemma try_candidates_false_url (cands : list pyval) (c : pyval)
    (s s' : state W) :
  try_candidates env cands s = (Ok false, s') ->
  last cands = Some c ->
  exists d, c = PDict d /\
            self_dict s' !! "url" = Some (default PNone (assoc "Url" d)).
Proof.
  revert s. induction cands as [|c0 rest IH]; intros s; [discriminate|].
  rewrite try_candidates_turn.
  destruct (attempt env c0 s) as [[[]|e] s1] eqn:Ea; try discriminate.
  - intros H. pose proof (report_success_true c0 s1) as Hne.
    rewrite H in Hne. contradiction.
  - destruct rest as [|c1 rest].
    + cbn [try_candidates]. unfold ret. intros [= <-] [= <-].
      exact (attempt_url env _ _ _ _ Ea).
    + intros H Hlast. apply (IH s1 H). exact Hlast.
Qed.

End Candidates.

(** C3: [try_another_version] tries the candidates in listing order, each
    one by a download followed, if it succeeded, by the smoke test; it
    returns [True] right after the first candidate that passes both,
    having entered [download] once per candidate up to that one and doing
    nothing afterwards but log; it returns [False] when every candidate
    has failed, and when fetching or parsing the index raises. *)
Theorem try_another_version_first_success {W} (env : Env W) (s : state W) :
  (forall cands s1 pre c post s2 s3,
     scan env (called TryAnotherVersion s) = (Ok cands, s1) ->
     cands = pre ++ c :: post ->
     exhaust env pre s1 = Some s2 ->
     attempt env c s2 = (Ok true, s3) ->
     downloads s3 = (downloads s1 + length pre + 1)%nat /\
     exists t,
       try_another_version env s
       = (Ok true, State (self_dict s3) (world s3) (trace s3 ++ t)) /\
       forallb is_log t = true) /\
  (forall cands s1 s2,
     scan env (called TryAnotherVersion s) = (Ok cands, s1) ->
     exhaust env cands s1 = Some s2 ->
     try_another_version env s = (Ok false, s2) /\
     downloads s2 = (downloads s1 + length cands)%nat) /\
  (forall e s1,
     scan env (called TryAnotherVersion s) = (Raise e, s1) ->
     fst (try_another_version env s) = Ok false).
Proof.
  split; [|split].
  - intros cands s1 pre c post s2 s3 Hscan -> Hpre Hc. split.
    + rewrite (attempt_downloads_once env _ _ _ _ Hc).
      rewrite (exhaust_downloads env _ _ _ Hpre). reflexivity.
    + destruct (attempt_url env _ _ _ _ Hc) as [d [-> Hu]].
      destruct (report_success_run d _ s3 Hu) as [t [Ht Hlog]].
      exists t. split; [|exact Hlog].
      unfold try_another_version. rewrite enter_run.
      unfold try_except, bind. rewrite Hscan.
      rewrite (try_candidates_hit env _ _ _ _ _ _ Hpre Hc), Ht. reflexivity.
  - intros cands s1 s2 Hscan Hall. split.
    + unfold try_another_version. rewrite enter_run.
      unfold try_except, bind. rewrite Hscan.
      rewrite (try_candidates_exhaust env _ _ _ Hall). reflexivity.
    + apply (exhaust_downloads env _ _ _ Hall).
  - intros e s1 Hscan.
    pose proof (scan_catchable env (called TryAnotherVersion s) e) as He.
    rewrite Hscan in He. specialize (He eq_refl).
    unfold try_another_version. rewrite enter_run.
    unfold try_except, bind at 1. rewrite Hscan, He.
    unfold bind.
    destruct (log_exception_total e s1) as [[] H1].
    destruct (log_exception e s1) as [o1 s2]. cbn [fst] in H1. subst o1.
    destruct (print_and_log_total
                (Msg "Error downloading the alternative version" [])
                "error" s2) as [[] H2].
    destruct (print_and_log _ "error" s2) as [o2 s3]. cbn [fst] in H2.
    subst o2.
    match goal with
    | |- context [send_mail env ?m ?subject s3] =>
        destruct (send_mail_total env m subject s3) as [[] H3];
        destruct (send_mail env m subject s3) as [o3 s4]
    end.
    cbn [fst] in H3. subst o3. reflexivity.
Qed.

Lemma try_another_version_first_success_witness :
  downloads Run.second_passed = (downloads Run.scanned + 1 + 1)%nat /\
  exists t,
    try_another_version Scenario.second_works Scenario.constructed
    = (Ok true,
       State (self_dict Run.second_passed) (world Run.second_passed)
         (trace Run.second_passed ++ t)) /\
    forallb is_log t = true.
Proof.
  apply (proj1 (try_another_version_first_success Scenario.second_works
                  Scenario.constructed)
           [Run.u1; Run.u2; Run.u3] Run.scanned [Run.u1] Run.u2 [Run.u3]
           Run.first_failed Run.second_passed);
    vm_compute; reflexivity.
Defined.

(** C10: [try_another_version] does not restore [self.url]: when it
    returns [False] after a scan that produced candidates, [self.url] is
    the [Url] of the last candidate. *)
Theorem try_another_version_leaves_url {W} (env : Env W) (s s1 : state W)
    (cands : list pyval) (c : pyval) :
  scan env (called TryAnotherVersion s) = (Ok cands, s1) ->
  last cands = Some c ->
  fst (try_another_version env s) = Ok false ->
  exists d, c = PDict d /\
            self_dict (after (try_another_version env) s) !! "url"
            = Some (default PNone (assoc "Url" d)).
Proof.
  intros Hscan Hlast.
  destruct (try_candidates_returns env cands s1 (scan_dicts env _ _ _ Hscan))
    as [b [s2 Hb]].
  unfold after, try_another_version. rewrite enter_run.
  unfold try_except, bind. rewrite Hscan, Hb. cbn [fst snd].
  intros [= ->]. exact (try_candidates_false_url env _ _ _ _ Hb Hlast).
Qed.

Lemma try_another_version_leaves_url_witness :
  exists d, Run.u3 = PDict d /\
            self_dict (after (try_another_version Scenario.nothing_works)
                         Scenario.constructed) !! "url"
            = Some (default PNone (assoc "Url" d)).
Proof.
  apply (try_another_version_leaves_url Scenario.nothing_works
           Scenario.constructed
           (after (scan Scenario.nothing_works)
              (called TryAnotherVersion Scenario.constructed))
           [Run.u1; Run.u2; Run.u3] Run.u3);
    vm_compute; reflexivity.
Defined.

(** ** The script from its first line *)

Section Counting.

Context {W : Type} (env : Env W).

Lemma traced_count {A} (m : M W A) allowed p (s : state W) :
  preserves (traced allowed) m ->
  (forall e, allowed e = true -> p e = false) ->
  count p (trace (after m s)) = count p (trace s).
Proof.
  intros Hm Hp. destruct (Hm s) as [t [Et Ht]]. unfold after.
  rewrite Et, count_app, (count_none _ _ _ Ht Hp). lia.
Qed.


Lemma send_mail_enters_once m subject (s : state W) :
  mails (after (send_mail env m subject) s) = (mails s + 1)%nat.
Proof.
  unfold send_mail, after. rewrite enter_run.
  cbv zeta. set (body := try_except _ _).
  assert (Hbody : preserves (traced emits_o365) body).
  { subst body. frame. }
  destruct (Hbody (called SendMail s)) as [t [Et Ht]].
  unfold mails. rewrite Et. cbn [called trace].
  rewrite !count_app. rewrite (count_none _ _ _ Ht); [cbn; lia|].
  intros [[]| | | | | | | | | | |]; cbn; congruence.
Qed.

End Counting.

(** Reads of a dictionary built by explicit assignments. *)
Ltac lookups :=
  repeat first
    [ rewrite lookup_insert_eq
    | rewrite lookup_insert_ne by discriminate
    | rewrite lookup_empty
    | progress cbn ].

(** The events of a method that are none of the counted ones. *)
Ltac uncounted :=
  let e := fresh "e" in
  intros e; destruct e as [[]| | | | | | | | | | |]; cbn; congruence.

Section Script.

Context {W : Type} (env : Env W).

(** The object [__init__] returns: nothing has been requested, mailed or
    copied, [url] is set and [BOT_FOLDERS] is not. *)
Lemma init_returned (w : W) (s1 : state W) :
  __init__ env "win64" (start w) = (Ok tt, s1) ->
  requests s1 = 0%nat /\ downloads s1 = 0%nat /\ mails s1 = 0%nat /\
  copies s1 = 0%nat /\
  (exists v, self_dict s1 !! "url" = Some v) /\
  self_dict s1 !! "BOT_FOLDERS" = None.
Proof.
  intros H.
  assert (Hb : self_dict s1 !! "BOT_FOLDERS" = None).
  { pose proof (init_keeps env "BOT_FOLDERS" eq_refl "win64" (start w)) as K.
    rewrite H in K. unfold keeps in K. cbn [snd] in K. rewrite K.
    apply lookup_empty. }
  revert H.
  unfold __init__, _get_edge_version, import_data, send_mail, load_property.
  unfold_monad. cbn.
  destruct (winreg_query env w) as [[v|msg] w1]; cbn; [|discriminate].
  lookups.
  destruct (json_load env "properties.json" w1) as [[p|msg] w2]; cbn.
  - destruct p as [| | | | |d|]; cbn; try discriminate.
    lookups. intros [= <-]. cbn. repeat split; try reflexivity; try exact Hb.
    eexists. lookups. reflexivity.
  - lookups. discriminate.
Qed.

End Script.

(** One more statement of the script has run, with the result [H]. *)
Ltac advance H := unfold bind at 1; rewrite H; cbn [negb].

Section Ladder.

Context {W : Type} (env : Env W).

Lemma copy_to_path_absent (s : state W) :
  self_dict s !! "BOT_FOLDERS" = None ->
  copy_to_path env s
  = (Raise (AttributeError "BOT_FOLDERS"), called CopyToPath s).
Proof.
  intros H. unfold copy_to_path. unfold_monad. cbn. rewrite H. reflexivity.
Qed.

Lemma run_pair {A} (m : M W A) (s : state W) (a : A) :
  fst (m s) = Ok a -> m s = (Ok a, after m s).
Proof. unfold after. destruct (m s) as [o s']. cbn. intros ->. reflexivity. Qed.

Lemma after_run {A} (m : M W A) (s s' : state W) (o : outcome A) :
  m s = (o, s') -> after m s = s'.
Proof. unfold after. intros ->. reflexivity. Qed.

(** Stage 1 passes: the script ends after its last log line. *)
Lemma main_stage1 (w : W) (s1 s2 : state W) :
  __init__ env "win64" (start w) = (Ok tt, s1) ->
  test env s1 = (Ok true, s2) ->
  main env (start w) = (Ok tt, after (print_and_log all_right "debug") s2).
Proof.
  intros H1 H2. unfold main. advance H1. advance H2.
  unfold bind, ret. reflexivity.
Qed.

(** The state in which stage 2 ends: still nothing mailed or copied, and
    no [BOT_FOLDERS]. *)
Lemma stage2_state (w : W) (s1 s2 s4 : state W) (b : bool) :
  __init__ env "win64" (start w) = (Ok tt, s1) ->
  test env s1 = (Ok false, s2) ->
  test env (after (download env) s2) = (Ok b, s4) ->
  (exists d, download env s2 = (Ok d, after (download env) s2)) /\
  mails s4 = 0%nat /\ copies s4 = 0%nat /\
  self_dict s4 !! "BOT_FOLDERS" = None.
Proof.
  intros H1 H2 H3.
  destruct (init_returned env w s1 H1) as (_ & _ & Hm & Hc & [v Hu] & Hb).
  pose proof (test_same_self env s1) as T1. rewrite H2 in T1.
  pose proof (download_same_self env s2) as D.
  pose proof (test_same_self env (after (download env) s2)) as T2.
  rewrite H3 in T2. unfold same_self in *. cbn [snd] in *.
  split; [|split; [|split]].
  - destruct (download_returns env s2 v) as [d Hd]; [rewrite T1; exact Hu|].
    exists d. apply run_pair. exact Hd.
  - pose proof (traced_count (test env) _ (is_call SendMail)
                  (after (download env) s2) (test_traced env)) as C2.
    pose proof (traced_count (download env) _ (is_call SendMail) s2
                  (download_traced env)) as C1.
    pose proof (traced_count (test env) _ (is_call SendMail) s1
                  (test_traced env)) as C0.
    rewrite (after_run _ _ _ _ H2) in C0.
    rewrite (after_run _ _ _ _ H3) in C2.
    unfold mails in *.
    rewrite C2, C1, C0; [exact Hm | uncounted..].
  - pose proof (traced_count (test env) _ (is_call CopyToPath)
                  (after (download env) s2) (test_traced env)) as C2.
    pose proof (traced_count (download env) _ (is_call CopyToPath) s2
                  (download_traced env)) as C1.
    pose proof (traced_count (test env) _ (is_call CopyToPath) s1
                  (test_traced env)) as C0.
    rewrite (after_run _ _ _ _ H2) in C0.
    rewrite (after_run _ _ _ _ H3) in C2.
    unfold copies in *.
    rewrite C2, C1, C0; [exact Hc | uncounted..].
  - rewrite T2. unfold after. rewrite D, T1. exact Hb.
Qed.

(** Stage 2 passes: the script goes on to [copy_to_path]. *)
Lemma main_stage2 (w : W) (s1 s2 s4 : state W) :
  __init__ env "win64" (start w) = (Ok tt, s1) ->
  test env s1 = (Ok false, s2) ->
  test env (after (download env) s2) = (Ok true, s4) ->
  main env (start w)
  = (Raise (AttributeError "BOT_FOLDERS"), called CopyToPath s4).
Proof.
  intros H1 H2 H3.
  destruct (stage2_state w s1 s2 s4 true H1 H2 H3) as ([d Hd] & _ & _ & Hb).
  unfold main. advance H1. advance H2.
  unfold bind at 1. advance Hd. advance H3.
  rewrite (copy_to_path_absent s4 Hb). reflexivity.
Qed.

(** Stage 3 passes: the script goes on to [copy_to_path]. *)
Lemma main_stage3 (w : W) (s1 s2 s4 s5 : state W) :
  __init__ env "win64" (start w) = (Ok tt, s1) ->
  test env s1 = (Ok false, s2) ->
  test env (after (download env) s2) = (Ok false, s4) ->
  try_another_version env s4 = (Ok true, s5) ->
  main env (start w)
  = (Raise (AttributeError "BOT_FOLDERS"), called CopyToPath s5).
Proof.
  intros H1 H2 H3 H4.
  destruct (stage2_state w s1 s2 s4 false H1 H2 H3) as ([d Hd] & _ & _ & Hb).
  pose proof (try_another_version_keeps env "BOT_FOLDERS" eq_refl s4) as K.
  rewrite H4 in K. unfold keeps in K. cbn [snd] in K.
  unfold main. advance H1. advance H2.
  unfold bind at 1. advance Hd. advance H3. advance H4.
  rewrite (copy_to_path_absent s5); [reflexivity|].
  rewrite K. exact Hb.
Qed.

(** Every stage fails: the script logs, calls [send_mail] and exits. *)
Lemma main_all_fail (w : W) (s1 s2 s4 s5 : state W) :
  __init__ env "win64" (start w) = (Ok tt, s1) ->
  test env s1 = (Ok false, s2) ->
  test env (after (download env) s2) = (Ok false, s4) ->
  try_another_version env s4 = (Ok false, s5) ->
  exists s6,
    main env (start w) = (Raise (SystemExit None), s6) /\
    mails s6 = (mails s5 + 1)%nat /\ copies s6 = copies s5.
Proof.
  intros H1 H2 H3 H4.
  destruct (stage2_state w s1 s2 s4 false H1 H2 H3) as ([d Hd] & _ & _ & Hb).
  unfold main. advance H1. advance H2.
  unfold bind at 1. advance Hd. advance H3. advance H4.
  set (note := Msg "Log error of version, notiftying via mail..." []).
  set (m := Msg _ []). set (subject := Msg "Error en driver" []).
  destruct (print_and_log_total note "debug" s5) as [[] Hl].
  apply run_pair in Hl. advance Hl.
  destruct (send_mail_total env m subject
              (after (print_and_log note "debug") s5)) as [[] Hs].
  apply run_pair in Hs. advance Hs.
  eexists. split; [reflexivity|]. split.
  - rewrite send_mail_enters_once. unfold mails.
    rewrite (traced_count _ _ _ _ (print_and_log_traced note "debug"));
      [reflexivity | uncounted].
  - unfold copies.
    rewrite (traced_count _ _ _ _ (send_mail_traced env m subject));
      [|uncounted].
    rewrite (traced_count _ _ _ _ (print_and_log_traced note "debug"));
      [reflexivity | uncounted].
Qed.

End Ladder.

(** ** The escalation ladder *)

Section GivingUp.

Context {W : Type} (env : Env W).


End GivingUp.



Section Stages.

Context {W : Type} (env : Env W).

(** When stage 1 passes nothing is requested, downloaded, mailed or
    copied. *)
Lemma stage1_quiet (w : W) (s1 s2 : state W) :
  __init__ env "win64" (start w) = (Ok tt, s1) ->
  test env s1 = (Ok true, s2) ->
  fst (main env (start w)) = Ok tt /\
  requests (after (main env) (start w)) = 0%nat /\
  downloads (after (main env) (start w)) = 0%nat /\
  copies (after (main env) (start w)) = 0%nat.
Proof.
  intros H1 H2.
  destruct (init_returned env w s1 H1) as (Hr & Hd & _ & Hc & _ & _).
  unfold after at 1 2 3. rewrite (main_stage1 env w s1 s2 H1 H2).
  cbn [fst snd]. split; [reflexivity|].
  unfold requests, downloads, copies in *.
  rewrite !(traced_count _ _ _ _ (print_and_log_traced all_right "debug"));
    [|uncounted..].
  rewrite <- (after_run _ _ _ _ H2).
  rewrite !(traced_count _ _ _ _ (test_traced env)); [|uncounted..].
  auto.
Qed.

Lemma try_another_version_copies (s : state W) :
  copies (after (try_another_version env) s) = copies s.
Proof.
  unfold copies.
  apply (traced_count _ _ _ _ (try_another_version_traced env)). uncounted.
Qed.

End Stages.

(** C1 (amended): when stage 1 passes, no request and no download is
    made and [copy_to_path] is not entered; when stage 1 fails and stage
    2 or stage 3 passes, [copy_to_path] is entered. *)
Theorem distribution_after_download {W} (env : Env W) (w : W) :
  (forall s1 s2,
     __init__ env "win64" (start w) = (Ok tt, s1) ->
     test env s1 = (Ok true, s2) ->
     requests (after (main env) (start w)) = 0%nat /\
     downloads (after (main env) (start w)) = 0%nat /\
     copies (after (main env) (start w)) = 0%nat) /\
  (forall s1 s2 s4,
     __init__ env "win64" (start w) = (Ok tt, s1) ->
     test env s1 = (Ok false, s2) ->
     test env (after (download env) s2) = (Ok true, s4) ->
     copies (after (main env) (start w)) = 1%nat) /\
  (forall s1 s2 s4 s5,
     __init__ env "win64" (start w) = (Ok tt, s1) ->
     test env s1 = (Ok false, s2) ->
     test env (after (download env) s2) = (Ok false, s4) ->
     try_another_version env s4 = (Ok true, s5) ->
     copies (after (main env) (start w)) = 1%nat).
Proof.
  split; [|split].
  - intros s1 s2 H1 H2. apply (stage1_quiet env w s1 s2 H1 H2).
  - intros s1 s2 s4 H1 H2 H3.
    destruct (stage2_state env w s1 s2 s4 true H1 H2 H3) as (_ & _ & Hc & _).
    unfold after. rewrite (main_stage2 env w s1 s2 s4 H1 H2 H3).
    unfold copies in *. cbn [snd called trace].
    rewrite count_app, Hc. reflexivity.
  - intros s1 s2 s4 s5 H1 H2 H3 H4.
    destruct (stage2_state env w s1 s2 s4 false H1 H2 H3) as (_ & _ & Hc & _).
    pose proof (try_another_version_copies env s4) as Hk.
    rewrite (after_run _ _ _ _ H4) in Hk.
    unfold after. rewrite (main_stage3 env w s1 s2 s4 s5 H1 H2 H3 H4).
    unfold copies in *. cbn [snd called trace].
    rewrite count_app, Hk, Hc. reflexivity.
Qed.

Lemma distribution_after_download_witness :
  copies (after (main Scenario.second_works) (start None)) = 1%nat.
Proof.
  apply (proj2 (proj2 (distribution_after_download Scenario.second_works
                         None))
           Scenario.constructed
           (after (test Scenario.second_works) Scenario.constructed)
           Stuck.retested
           (after (try_another_version Scenario.second_works)
              Stuck.retested));
    vm_compute; reflexivity.
Defined.

(** C1 as stated fails: the driver already in the working directory
    passes the smoke test of stage 1, and the run ends without entering
    [copy_to_path]. *)
Lemma stage1_skips_distribution :
  test Scenario.already_working
    (after (__init__ Scenario.already_working "win64")
       (start (Some "installed")))
  = (Ok true,
     after (test Scenario.already_working)
       (after (__init__ Scenario.already_working "win64")
          (start (Some "installed")))) /\
  fst (main Scenario.already_working (start (Some "installed"))) = Ok tt /\
  copies (after (main Scenario.already_working) (start (Some "installed")))
  = 0%nat.
Proof. vm_compute. repeat split; reflexivity. Qed.

(** C6 (amended): when every stage fails the script leaves through
    [exit()], that is [SystemExit(None)], whose status is 0, without
    entering [copy_to_path]; when stage 1 passes it ends normally, with
    status 0, without entering [copy_to_path] either. *)
Theorem exit_status_of_the_run {W} (env : Env W) (w : W) :
  (forall s1 s2 s4 s5,
     __init__ env "win64" (start w) = (Ok tt, s1) ->
     test env s1 = (Ok false, s2) ->
     test env (after (download env) s2) = (Ok false, s4) ->
     try_another_version env s4 = (Ok false, s5) ->
     fst (main env (start w)) = Raise (SystemExit None) /\
     exit_status (fst (main env (start w))) = 0 /\
     copies (after (main env) (start w)) = 0%nat) /\
  (forall s1 s2,
     __init__ env "win64" (start w) = (Ok tt, s1) ->
     test env s1 = (Ok true, s2) ->
     fst (main env (start w)) = Ok tt /\
     exit_status (fst (main env (start w))) = 0 /\
     copies (after (main env) (start w)) = 0%nat).
Proof.
  split.
  - intros s1 s2 s4 s5 H1 H2 H3 H4.
    destruct (stage2_state env w s1 s2 s4 false H1 H2 H3) as (_ & _ & Hc & _).
    pose proof (try_another_version_copies env s4) as Hk.
    rewrite (after_run _ _ _ _ H4) in Hk.
    destruct (main_all_fail env w s1 s2 s4 s5 H1 H2 H3 H4) as (s6 & E & _ & C).
    unfold after. rewrite E. cbn [fst snd exit_status].
    repeat split. rewrite C, Hk. exact Hc.
  - intros s1 s2 H1 H2.
    destruct (stage1_quiet env w s1 s2 H1 H2) as (E & _ & _ & C).
    rewrite E. cbn [exit_status]. auto.
Qed.

Lemma exit_status_of_the_run_witness :
  fst (main Scenario.nothing_works (start None)) = Raise (SystemExit None) /\
  exit_status (fst (main Scenario.nothing_works (start None))) = 0 /\
  copies (after (main Scenario.nothing_works) (start None)) = 0%nat.
Proof.
  apply (proj1 (exit_status_of_the_run Scenario.nothing_works None)
           Scenario.constructed Stuck.tested Stuck.retested Stuck.exhausted);
    vm_compute; reflexivity.
Defined.

(** C6 as stated fails: nothing can be provisioned (all four downloads
    are tried, [try_another_version] returns [False]), and the status
    the process ends with is 0. *)
Lemma exhaustion_exits_with_zero :
  fst (try_another_version Scenario.nothing_works Stuck.retested) = Ok false /\
  downloads (after (main Scenario.nothing_works) (start None)) = 4%nat /\
  exit_status (fst (main Scenario.nothing_works (start None))) = 0.
Proof. vm_compute. repeat split; reflexivity. Qed.

(** C5 (amended): a failure of the version detection leaves the script
    at once, with nothing logged and [send_mail] never entered; a failure
    to load the properties is caught, [send_mail] is entered once, and the
    script then crashes on the missing properties; [test],
    [try_another_version] and, on an object that has its [url],
    [download] turn every error into a returned boolean. *)
Theorem crashes_and_failure_signals {W} (env : Env W) :
  (forall w msg w1,
     winreg_query env w = (Failed msg, w1) ->
     fst (main env (start w)) = Raise (LibraryError msg) /\
     mails (after (main env) (start w)) = 0%nat /\
     count is_log (trace (after (main env) (start w))) = 0%nat) /\
  (forall w v w1 msg w2,
     winreg_query env w = (Returned v, w1) ->
     json_load env "properties.json" w1 = (Failed msg, w2) ->
     fst (main env (start w)) = Raise (AttributeError "get") /\
     mails (after (main env) (start w)) = 1%nat) /\
  (forall s,
     (exists b, fst (test env s) = Ok b) /\
     (exists b, fst (try_another_version env s) = Ok b) /\
     (forall v, self_dict s !! "url" = Some v ->
                exists b, fst (download env s) = Ok b)).
Proof.
  split; [|split].
  - intros w msg w1 H.
    unfold after, main, __init__, _get_edge_version. unfold_monad. cbn.
    rewrite H. cbn. auto.
  - intros w v w1 msg w2 Hv Hp.
    unfold after, main, __init__, _get_edge_version, import_data, send_mail,
      load_property.
    unfold_monad. cbn. rewrite Hv. lookups. rewrite Hp. lookups. auto.
  - intros s. split; [apply test_total|].
    split; [apply try_another_version_total|].
    intros v Hu. exact (download_returns env s v Hu).
Qed.

Lemma crashes_and_failure_signals_witness :
  (fst (main Scenario.no_browser (start None))
   = Raise (LibraryError "FileNotFoundError") /\
   mails (after (main Scenario.no_browser) (start None)) = 0%nat /\
   count is_log (trace (after (main Scenario.no_browser) (start None)))
   = 0%nat) /\
  (fst (main Scenario.no_properties (start None))
   = Raise (AttributeError "get") /\
   mails (after (main Scenario.no_properties) (start None)) = 1%nat) /\
  (exists b, fst (download Scenario.second_works Scenario.constructed) = Ok b).
Proof.
  split; [|split].
  - apply (proj1 (crashes_and_failure_signals Scenario.no_browser)
             None "FileNotFoundError" None).
    vm_compute. reflexivity.
  - apply (proj1 (proj2 (crashes_and_failure_signals Scenario.no_properties))
             None Sim.version None "FileNotFoundError" None);
      vm_compute; reflexivity.
  - apply (proj2 (proj2 (proj2 (proj2
             (crashes_and_failure_signals Scenario.second_works))
             Scenario.constructed))
             (PStr (matched_url Sim.version "win64"))).
    vm_compute. reflexivity.
Defined.

(** C5 as stated fails: when the registry key of the browser is missing
    the script crashes without having entered [send_mail] or logged
    anything, so the operator is not notified. *)
Lemma version_crash_is_silent :
  fst (main Scenario.no_browser (start None))
  = Raise (LibraryError "FileNotFoundError") /\
  exit_status (fst (main Scenario.no_browser (start None))) = 1 /\
  trace (after (main Scenario.no_browser) (start None))
  = [ECall Init; ECall GetEdgeVersion; ERegistry].
Proof. vm_compute. repeat split; reflexivity. Qed.

(** C2: on an object obtained from a fresh one by any calls of its
    methods, [copy_to_path] reads [self.BOT_FOLDERS], which nothing has
    assigned, and raises [AttributeError] before any copy; the script
    does not catch it, so a run in which stage 2 or stage 3 passes ends
    with that exception. *)
Theorem copy_to_path_raises {W} (env : Env W) (w : W) :
  (forall calls,
     copy_to_path env (invoke_all env calls (start w))
     = (Raise (AttributeError "BOT_FOLDERS"),
        called CopyToPath (invoke_all env calls (start w)))) /\
  (forall s1 s2 s4,
     __init__ env "win64" (start w) = (Ok tt, s1) ->
     test env s1 = (Ok false, s2) ->
     test env (after (download env) s2) = (Ok true, s4) ->
     main env (start w)
     = (Raise (AttributeError "BOT_FOLDERS"), called CopyToPath s4)) /\
  (forall s1 s2 s4 s5,
     __init__ env "win64" (start w) = (Ok tt, s1) ->
     test env s1 = (Ok false, s2) ->
     test env (after (download env) s2) = (Ok false, s4) ->
     try_another_version env s4 = (Ok true, s5) ->
     main env (start w)
     = (Raise (AttributeError "BOT_FOLDERS"), called CopyToPath s5)).
Proof.
  split; [|split].
  - intros calls. apply copy_to_path_absent.
    apply (unassigned_absent env "BOT_FOLDERS" eq_refl).
  - apply main_stage2.
  - apply main_stage3.
Qed.

Lemma copy_to_path_raises_witness :
  main Scenario.second_works (start None)
  = (Raise (AttributeError "BOT_FOLDERS"),
     called CopyToPath
       (after (try_another_version Scenario.second_works) Stuck.retested)).
Proof.
  apply (proj2 (proj2 (copy_to_path_raises Scenario.second_works None))
           Scenario.constructed
           (after (test Scenario.second_works) Scenario.constructed)
           Stuck.retested
           (after (try_another_version Scenario.second_works)
              Stuck.retested));
    vm_compute; reflexivity.
Defined.

(** The scenario of the specification: the matched download answers 404,
    the index lists three win64 builds of major version 103, the first
    fails its smoke test and the second passes.  Three downloads are
    entered (the matched one and two candidates), the object points at
    the second candidate, whose archive is the one on disk. *)
Example second_candidate_scenario :
  downloads (after (main Scenario.second_works) (start None)) = 3%nat /\
  self_dict (after (main Scenario.second_works) (start None)) !! "url"
  = Some (PStr "u2") /\
  world (after (main Scenario.second_works) (start None)) = Some "u2".
Proof. vm_compute. repeat split; reflexivity. Qed.

(** * Further properties of the code *)

(** ** What every method preserves *)

Section AnyMethod.

Context {W : Type} (env : Env W) (R : relation (state W)) `{!PreOrder R}.

Hypothesis R_emit :
  forall e, is_print e = false -> is_logged e = false -> preserves R (emit e).
Hypothesis R_ext :
  forall A e (f : W -> ext A * W),
    is_print e = false -> is_logged e = false -> preserves R (call_ext e f).
Hypothesis R_set : forall name v, preserves R (setattr name v).
Hypothesis R_log : forall m log_type, preserves R (print_and_log m log_type).

















End AnyMethod.

(** ** Console and log file *)

#[export] Instance paired_preorder {W} : PreOrder (@paired W).
Proof.
  split.
  - intros s. exists []. split; [symmetry; apply app_nil_r | reflexivity].
  - intros s1 s2 s3 [t1 [E1 H1]] [t2 [E2 H2]].
    exists (t1 ++ t2). split.
    + rewrite E2, E1, app_assoc. reflexivity.
    + rewrite !count_app, H1, H2. reflexivity.
Qed.

Section Paired.

Context {W : Type}.





End Paired.


(** ** The smoke test *)

(** X2: [test] launches the driver named by [self.DRIVER_NAME] once and
    returns [True] exactly when both the launch and the close succeed;
    after a failed launch nothing is closed; on an object without
    [DRIVER_NAME] it returns [False] without launching anything. *)
Theorem test_result {W} (env : Env W) (s : state W) :
  (forall exe,
     self_dict s !! "DRIVER_NAME" = Some exe ->
     count is_launch (trace (after (test env) s))
     = (count is_launch (trace s) + 1)%nat /\
     match webdriver_edge env exe (world s) with
     | (Returned _, w1) =>
         fst (test env s)
         = Ok (match fst (driver_close env w1) with
               | Returned _ => true
               | Failed _ => false
               end) /\
         world (after (test env) s) = snd (driver_close env w1) /\
         count is_close (trace (after (test env) s))
         = (count is_close (trace s) + 1)%nat
     | (Failed _, w1) =>
         fst (test env s) = Ok false /\
         world (after (test env) s) = w1 /\
         count is_close (trace (after (test env) s))
         = count is_close (trace s)
     end) /\
  (self_dict s !! "DRIVER_NAME" = None ->
   fst (test env s) = Ok false /\
   world (after (test env) s) = world s /\
   count is_launch (trace (after (test env) s)) = count is_launch (trace s)).
Proof.
  split.
  - intros exe Hexe. unfold test. unfold_monad. cbn -[count].
    rewrite Hexe. cbn -[count].
    destruct (webdriver_edge env exe (world s)) as [[[]|msg] w1];
      cbn -[count].
    + destruct (driver_close env w1) as [[[]|msg] w2]; cbn -[count];
        rewrite <- !app_assoc, !count_app; cbn; auto.
    + rewrite <- !app_assoc, !count_app. cbn. auto.
  - intros Hexe. unfold test. unfold_monad. cbn -[count].
    rewrite Hexe. cbn -[count].
    rewrite <- !app_assoc, !count_app. cbn. auto.
Qed.

Lemma test_result_witness :
  fst (test Scenario.second_works Run.second_passed) = Ok true /\
  fst (test Scenario.second_works Scenario.constructed) = Ok false.
Proof.
  split.
  - pose proof (proj1 (test_result Scenario.second_works Run.second_passed)
                  (PStr "msedgedriver.exe")) as H.
    destruct H as [_ H]; [vm_compute; reflexivity|].
    vm_compute in H. destruct H as [H _].
    vm_compute. exact H.
  - pose proof (proj1 (test_result Scenario.second_works Scenario.constructed)
                  (PStr "msedgedriver.exe")) as H.
    destruct H as [_ H]; [vm_compute; reflexivity|].
    vm_compute in H. destruct H as [H _].
    vm_compute. exact H.
Defined.

(** ** Construction *)

(** X3: when the registry gives the version and [properties.json] holds
    an object, [__init__] returns; the object then has [version],
    [os_type], the matched [url] and, for each of the eight keys, an
    attribute holding the value of the key, or [None] when the key is
    missing; no request has been made and no mail attempted. *)
Theorem init_sets_attributes {W} (env : Env W) (w w1 w2 : W)
    (os_type v : string) (d : list (string * pyval)) :
  winreg_query env w = (Returned v, w1) ->
  json_load env "properties.json" w1 = (Returned (PDict d), w2) ->
  fst (__init__ env os_type (start w)) = Ok tt /\
  world (after (__init__ env os_type) (start w)) = w2 /\
  self_dict (after (__init__ env os_type) (start w)) !! "version"
  = Some (PStr v) /\
  self_dict (after (__init__ env os_type) (start w)) !! "os_type"
  = Some (PStr os_type) /\
  self_dict (after (__init__ env os_type) (start w)) !! "url"
  = Some (PStr (matched_url v os_type)) /\
  (forall name key,
     In (name, key) property_table ->
     self_dict (after (__init__ env os_type) (start w)) !! name
     = Some (default PNone (assoc key d))) /\
  requests (after (__init__ env os_type) (start w)) = 0%nat /\
  mails (after (__init__ env os_type) (start w)) = 0%nat.
Proof.
  intros Hv Hp.
  unfold __init__, _get_edge_version, import_data, send_mail, load_property.
  unfold_monad. cbn. rewrite Hv. lookups. rewrite Hp. lookups.
  repeat split; try reflexivity.
  intros name key Hin. cbn in Hin.
  repeat (destruct Hin as [Hin|Hin];
          [injection Hin as <- <-; lookups; reflexivity|]).
  contradiction.
Qed.

Lemma init_sets_attributes_witness :
  self_dict (after (__init__ Edge.empty_properties "win64") (start None))
    !! "DRIVER_NAME" = Some PNone /\
  self_dict (after (__init__ Scenario.second_works "win64") (start None))
    !! "BASE_URL" = Some (PStr "https://index").
Proof.
  split.
  - apply (proj1 (proj2 (proj2 (proj2 (proj2 (proj2
             (init_sets_attributes Edge.empty_properties None None None
                "win64" Sim.version [] eq_refl eq_refl))))))
             "DRIVER_NAME" "driver_name").
    cbn. auto.
  - apply (proj1 (proj2 (proj2 (proj2 (proj2 (proj2
             (init_sets_attributes Scenario.second_works None None None
                "win64" Sim.version
                [("driver_name", PStr "msedgedriver.exe");
                 ("base_url", PStr "https://index");
                 ("emails_to_report", PList [PStr "ops@example.org"]);
                 ("current_path", PStr "C:/bots/driver");
                 ("token_id", PStr "token");
                 ("host", PStr "host");
                 ("tenant_id", PStr "tenant");
                 ("client_id", PStr "client")] eq_refl eq_refl))))))
             "BASE_URL" "base_url").
    cbn. auto.
Defined.

(** X4: when [properties.json] holds valid JSON that is not an object,
    [__init__] raises [AttributeError] on the first [properties.get],
    without a log line and without a call of [send_mail]. *)
Theorem init_rejects_non_object {W} (env : Env W) (w w1 w2 : W)
    (os_type v : string) (p : pyval) :
  winreg_query env w = (Returned v, w1) ->
  json_load env "properties.json" w1 = (Returned p, w2) ->
  is_dict p = false ->
  fst (__init__ env os_type (start w)) = Raise (AttributeError "get") /\
  mails (after (__init__ env os_type) (start w)) = 0%nat /\
  count is_log (trace (after (__init__ env os_type) (start w))) = 0%nat /\
  self_dict (after (__init__ env os_type) (start w)) !! "DRIVER_NAME" = None.
Proof.
  intros Hv Hp Hd.
  unfold __init__, _get_edge_version, import_data, send_mail, load_property.
  unfold_monad. cbn. rewrite Hv. lookups. rewrite Hp. lookups.
  destruct p; try discriminate; lookups; repeat split; reflexivity.
Qed.

Lemma init_rejects_non_object_witness :
  fst (__init__ Edge.list_properties "win64" (start None))
  = Raise (AttributeError "get").
Proof.
  apply (init_rejects_non_object Edge.list_properties None None None "win64"
           Sim.version (PList []) eq_refl eq_refl eq_refl).
Defined.

(** ** Candidates that cannot be downloaded *)

(** X5: a candidate whose entry has no [Url], or one that is not a
    string, is passed over: [download] is entered, no request goes out,
    the world is untouched, and the loop goes on with the next candidate,
    leaving that value in [self.url]. *)
Theorem candidate_without_url_is_skipped {W} (env : Env W) (s : state W)
    (d : list (string * pyval)) (rest : list pyval) :
  (forall u, default PNone (assoc "Url" d) <> PStr u) ->
  exists s',
    try_candidates env (PDict d :: rest) s = try_candidates env rest s' /\
    requests s' = requests s /\
    downloads s' = (downloads s + 1)%nat /\
    tests s' = tests s /\
    world s' = world s /\
    self_dict s' !! "url" = Some (default PNone (assoc "Url" d)).
Proof.
  intros Hv. rewrite try_candidates_turn.
  assert (H : exists s',
             attempt env (PDict d) s = (Ok false, s') /\
             requests s' = requests s /\
             downloads s' = (downloads s + 1)%nat /\
             tests s' = tests s /\
             world s' = world s /\
             self_dict s' !! "url" = Some (default PNone (assoc "Url" d))).
  { unfold attempt, download. unfold_monad. cbn -[count].
    destruct (default PNone (assoc "Url" d)) as [| | |u| | |] eqn:E;
      try (exfalso; apply (Hv u); reflexivity);
      repeat (rewrite lookup_insert_eq; cbn -[count]);
      (eexists; split; [reflexivity|]);
      unfold requests, downloads, tests; cbn [trace self_dict world];
      rewrite <- !app_assoc, !count_app; cbn;
      rewrite ?lookup_insert_eq; repeat split; lia. }
  destruct H as (s' & Ha & H). rewrite Ha. exists s'. split; [reflexivity|].
  exact H.
Qed.

Lemma candidate_without_url_is_skipped_witness :
  exists s',
    try_candidates Scenario.second_works [PDict [("Name", PStr "103.0")]]
      Scenario.constructed
    = try_candidates Scenario.second_works [] s' /\
    requests s' = requests Scenario.constructed /\
    downloads s' = (downloads Scenario.constructed + 1)%nat /\
    tests s' = tests Scenario.constructed /\
    world s' = world Scenario.constructed /\
    self_dict s' !! "url" = Some PNone.
Proof.
  apply (candidate_without_url_is_skipped Scenario.second_works
           Scenario.constructed [("Name", PStr "103.0")] []).
  intros u. cbn. discriminate.
Defined.

(** ** A scan that fails *)

Section ScanFailure.

Context {W : Type} (env : Env W).

(** The state [try_another_version] ends in when the scan raises. *)
Lemma try_another_version_caught (s s1 : state W) (e : exn) :
  scan env (called TryAnotherVersion s) = (Raise e, s1) ->
  exists m subject,
    try_another_version env s
    = (Ok false,
       after (send_mail env m subject)
         (after (print_and_log
                   (Msg "Error downloading the alternative version" [])
                   "error")
            (after (log_exception e) s1))).
Proof.
  intros Hscan.
  pose proof (scan_catchable env (called TryAnotherVersion s) e) as He.
  rewrite Hscan in He. specialize (He eq_refl).
  unfold try_another_version. rewrite enter_run.
  unfold try_except, bind at 1. rewrite Hscan, He.
  destruct (log_exception_total e s1) as [[] H1].
  apply run_pair in H1. advance H1.
  set (s2 := after (log_exception e) s1).
  destruct (print_and_log_total
              (Msg "Error downloading the alternative version" [])
              "error" s2) as [[] H2].
  apply run_pair in H2. advance H2.
  set (s3 := after _ s2).
  match goal with
  | |- context [send_mail env ?m ?subject] =>
      exists m, subject;
      destruct (send_mail_total env m subject s3) as [[] H3];
      apply run_pair in H3; advance H3
  end.
  reflexivity.
Qed.

End ScanFailure.

(** X6: when fetching, parsing or filtering the index raises,
    [try_another_version] returns [False] having entered [send_mail]
    exactly once and [download] not at all, and leaves every attribute of
    the object, [url] included, as it was. *)
Theorem scan_failure_is_reported {W} (env : Env W) (s s1 : state W)
    (e : exn) :
  scan env (called TryAnotherVersion s) = (Raise e, s1) ->
  fst (try_another_version env s) = Ok false /\
  mails (after (try_another_version env) s) = (mails s + 1)%nat /\
  downloads (after (try_another_version env) s) = downloads s /\
  self_dict (after (try_another_version env) s) = self_dict s.
Proof.
  intros Hscan.
  destruct (try_another_version_caught env s s1 e Hscan) as (m & sub & E).
  unfold after at 1 2 3. rewrite E. cbn [fst snd].
  pose proof (scan_traced env (called TryAnotherVersion s)) as [t [Et Ht]].
  pose proof (scan_same_self env (called TryAnotherVersion s)) as Hs.
  rewrite Hscan in Et, Hs. cbn [snd called trace] in Et.
  unfold same_self in Hs. cbn [snd called self_dict] in Hs.
  split; [reflexivity|]. split; [|split].
  - rewrite send_mail_enters_once. unfold mails.
    rewrite (traced_count _ _ _ _ (print_and_log_traced _ _)); [|uncounted].
    rewrite (traced_count _ _ _ _ (log_exception_traced e)); [|uncounted].
    rewrite Et, !count_app, (count_none _ _ _ Ht); [cbn; lia | uncounted].
  - unfold downloads.
    rewrite (traced_count _ _ _ _ (send_mail_traced env m sub)); [|uncounted].
    rewrite (traced_count _ _ _ _ (print_and_log_traced _ _)); [|uncounted].
    rewrite (traced_count _ _ _ _ (log_exception_traced e)); [|uncounted].
    rewrite Et, !count_app, (count_none _ _ _ Ht); [cbn; lia | uncounted].
  - unfold after.
    rewrite (send_mail_same_self env m sub), (print_and_log_same_self _ _),
      (log_exception_same_self e). exact Hs.
Qed.

Lemma scan_failure_is_reported_witness :
  fst (try_another_version Edge.broken_index Scenario.constructed) = Ok false /\
  mails (after (try_another_version Edge.broken_index) Scenario.constructed)
  = (mails Scenario.constructed + 1)%nat /\
  downloads (after (try_another_version Edge.broken_index)
               Scenario.constructed)
  = downloads Scenario.constructed /\
  self_dict (after (try_another_version Edge.broken_index)
               Scenario.constructed)
  = self_dict Scenario.constructed.
Proof.
  apply (scan_failure_is_reported Edge.broken_index Scenario.constructed
           (after (scan Edge.broken_index)
              (called TryAnotherVersion Scenario.constructed))
           (LibraryError "ExpatError")).
  vm_compute. reflexivity.
Defined.

(** ** Listings that are not lists of well-formed entries *)

Section Listings.

Context {W : Type} (env : Env W).

(** Once the index has been fetched and parsed, the scan is the
    comprehension over what [Blob] iterates to. *)
Lemma scan_reaches_comprehension (s : state W) (base : string)
    (res : response) (w1 w2 : W) (doc e b urls : pyval)
    (items : list pyval) :
  self_dict s !! "BASE_URL" = Some (PStr base) ->
  requests_get env base (world s) = (Returned res, w1) ->
  xmltodict_parse env (text res) w1 = (Returned doc, w2) ->
  py_get doc "EnumerationResults" = Ok e ->
  py_get e "Blobs" = Ok b ->
  py_get b "Blob" = Ok urls ->
  py_iter urls = Ok items ->
  exists s', scan env s = comprehension items s' /\
             self_dict s' = self_dict s.
Proof.
  intros Hb Hget Hparse E1 E2 E3 E4.
  unfold scan. unfold_monad. cbn -[comprehension].
  rewrite Hb. cbn -[comprehension]. rewrite Hget. cbn -[comprehension].
  rewrite Hparse. cbn -[comprehension]. rewrite E1, E2, E3, E4.
  eexists. split; reflexivity.
Qed.

(** An entry the condition of the comprehension accepts or rejects
    without raising is a dictionary with a string [Name]. *)
Lemma is_candidate_blob (u : pyval) (s s' : state W) (keep : bool) :
  is_candidate u s = (Ok keep, s') -> is_blob u = true.
Proof.
  unfold is_candidate, bind, lift.
  destruct u as [| | | | |d|]; cbn [py_getitem]; try discriminate.
  unfold is_blob.
  destruct (assoc "Name" d) as [[| | |n| | |]|]; cbn [py_split_dot];
    try discriminate.
  reflexivity.
Qed.

Lemma comprehension_blobs (urls l : list pyval) (s s' : state W) :
  comprehension urls s = (Ok l, s') -> forallb is_blob urls = true.
Proof.
  revert l s s'.
  induction urls as [|u rest IH]; intros l s s'; cbn [comprehension].
  - reflexivity.
  - unfold bind at 1.
    destruct (is_candidate u s) as [[keep|e] s1] eqn:Eu; [|discriminate].
    unfold bind at 1.
    destruct (comprehension rest s1) as [[tail|e] s2] eqn:Er; [|discriminate].
    intros _. cbn [forallb].
    rewrite (is_candidate_blob _ _ _ _ Eu), (IH _ _ _ Er). reflexivity.
Qed.

End Listings.

(** X7: when the index lists a single build, so that its [Blob] is one
    dictionary instead of a list, the scan iterates over the keys of that
    dictionary and raises [TypeError] on the first one: the build is
    never tried. *)
Theorem single_entry_index_raises {W} (env : Env W) (s : state W)
    (base k : string) (res : response) (w1 w2 : W) (doc e b v : pyval)
    (rest : list (string * pyval)) :
  self_dict s !! "BASE_URL" = Some (PStr base) ->
  requests_get env base (world s) = (Returned res, w1) ->
  xmltodict_parse env (text res) w1 = (Returned doc, w2) ->
  py_get doc "EnumerationResults" = Ok e ->
  py_get e "Blobs" = Ok b ->
  py_get b "Blob" = Ok (PDict ((k, v) :: rest)) ->
  fst (scan env s) = Raise (TypeError "string indices must be integers").
Proof.
  intros Hb Hget Hparse E1 E2 E3.
  destruct (scan_reaches_comprehension env s base res w1 w2 doc e b _ _
              Hb Hget Hparse E1 E2 E3 eq_refl) as (s' & -> & _).
  reflexivity.
Qed.

Lemma single_entry_index_raises_witness :
  fst (scan Edge.single_blob Scenario.constructed)
  = Raise (TypeError "string indices must be integers").
Proof.
  apply (single_entry_index_raises Edge.single_blob Scenario.constructed
           "https://index" "Name" (Response 200 "https://index" "index")
           None None
           (Sim.listing (Sim.blob "103.0.1264.2/edgedriver_win64.zip" "u1"))
           (PDict [("Blobs",
                    PDict [("Blob",
                            Sim.blob "103.0.1264.2/edgedriver_win64.zip"
                              "u1")])])
           (PDict [("Blob",
                    Sim.blob "103.0.1264.2/edgedriver_win64.zip" "u1")])
           (PStr "103.0.1264.2/edgedriver_win64.zip")
           [("Url", PStr "u1")]);
    vm_compute; reflexivity.
Defined.

(** X8: with the index fetched and parsed into a list of entries, and
    [version] and [os_type] strings, the scan returns a list exactly when
    every entry is a dictionary with a string [Name]: one malformed entry
    makes the whole scan raise. *)
Theorem scan_needs_well_formed_entries {W} (env : Env W) (s : state W)
    (version os base : string) (res : response) (w1 w2 : W) (doc : pyval)
    (blobs : list pyval) :
  self_dict s !! "version" = Some (PStr version) ->
  self_dict s !! "os_type" = Some (PStr os) ->
  self_dict s !! "BASE_URL" = Some (PStr base) ->
  requests_get env base (world s) = (Returned res, w1) ->
  xmltodict_parse env (text res) w1 = (Returned doc, w2) ->
  index_entries doc = Some blobs ->
  (exists l, fst (scan env s) = Ok l) <-> forallb is_blob blobs = true.
Proof.
  intros Hv Ho Hb Hget Hparse Hdoc.
  unfold index_entries in Hdoc.
  destruct (py_get doc "EnumerationResults") as [e|] eqn:E1; [|discriminate].
  destruct (py_get e "Blobs") as [b|] eqn:E2; [|discriminate].
  destruct (py_get b "Blob") as [[| | | |l| |]|] eqn:E3; try discriminate.
  injection Hdoc as ->.
  destruct (scan_reaches_comprehension env s base res w1 w2 doc e b _ _
              Hb Hget Hparse E1 E2 E3 eq_refl) as (s' & -> & Hs).
  split.
  - intros [l Hl].
    destruct (comprehension blobs s') as [o s2] eqn:Ec. cbn [fst] in Hl.
    subst o. exact (comprehension_blobs _ _ _ _ Ec).
  - intros Hall. eexists.
    rewrite (comprehension_filter s' version os blobs); [reflexivity|..];
      try assumption; rewrite Hs; assumption.
Qed.

Lemma scan_needs_well_formed_entries_witness :
  ~ exists l, fst (scan Edge.nameless_entry Scenario.constructed) = Ok l.
Proof.
  intros H.
  apply (scan_needs_well_formed_entries Edge.nameless_entry
           Scenario.constructed Sim.version "win64" "https://index"
           (Response 200 "https://index" "index") None None
           (Sim.listing
              (PList [Sim.blob "103.0.1264.2/edgedriver_win64.zip" "u1";
                      PDict [("Url", PStr "u2")];
                      Sim.blob "103.0.1264.12/edgedriver_win64.zip" "u3"]))
           [Sim.blob "103.0.1264.2/edgedriver_win64.zip" "u1";
            PDict [("Url", PStr "u2")];
            Sim.blob "103.0.1264.12/edgedriver_win64.zip" "u3"]) in H;
    try (vm_compute; reflexivity).
  vm_compute in H. discriminate H.
Defined.

(** ** What the fallback changes on the object *)

Section OnlyUrl.

Context {W : Type} (env : Env W) (k : string) (Hk : k <> "url").

Local Ltac only_url_step :=
  lazymatch goal with
  | |- preserves (keeps _) (setattr "url" _) =>
      apply keeps_setattr; intros E; apply Hk; symmetry; exact E
  | |- _ => frame_step
  end.

Local Ltac only_url :=
  repeat first [only_url_step | solve [auto with frame]].

Lemma try_candidates_only_url (l : list pyval) :
  preserves (keeps k) (try_candidates env l).
Proof using Hk.
  induction l as [|obj rest IH]; cbn [try_candidates]; only_url.
Qed.

Lemma try_another_version_only_url :
  preserves (keeps k) (try_another_version env).
Proof using Hk.
  unfold try_another_version. only_url. apply try_candidates_only_url.
Qed.

End OnlyUrl.

(** X9: [try_another_version] assigns no attribute but [url]: whatever
    happens, every other attribute of the object, set or not, is after the
    call what it was before. *)
Theorem try_another_version_touches_url_only {W} (env : Env W)
    (s : state W) (k : string) :
  k <> "url" ->
  self_dict (after (try_another_version env) s) !! k = self_dict s !! k.
Proof.
  intros Hk. exact (try_another_version_only_url env k Hk s).
Qed.

Lemma try_another_version_touches_url_only_witness :
  self_dict (after (try_another_version Scenario.second_works)
               Scenario.constructed) !! "version"
  = self_dict Scenario.constructed !! "version".
Proof.
  apply (try_another_version_touches_url_only Scenario.second_works
           Scenario.constructed "version").
  discriminate.
Defined.

(** ** How a run can end *)

Section Endings.

Context {W : Type} (env : Env W).



End Endings.


(** ** How much the loop can do *)

Section Bounds.

Context {W : Type} (env : Env W).

Lemma test_enters_once (s : state W) :
  tests (after (test env) s) = (tests s + 1)%nat.
Proof.
  unfold test, after. rewrite enter_run.
  set (body := try_except _ _).
  assert (Hbody : preserves (traced (fun e => negb (is_call Test e))) body).
  { subst body. frame. }
  destruct (Hbody (called Test s)) as [t [Et Ht]].
  unfold tests. rewrite Et. cbn [called trace].
  rewrite !count_app. rewrite (count_none _ _ _ Ht); [cbn; lia|].
  intros e He. apply negb_true_iff in He. exact He.
Qed.

Lemma download_enters_no_test (s : state W) :
  tests (after (download env) s) = tests s.
Proof.
  unfold tests. apply (traced_count _ _ _ _ (download_traced env)). uncounted.
Qed.




End Bounds.


(** ** The second stage *)

Section SecondStage.

Context {W : Type} (env : Env W).

Lemma count_grows {A} (m : M W A) allowed p (s : state W) :
  preserves (traced allowed) m ->
  (count p (trace s) <= count p (trace (after m s)))%nat.
Proof.
  intros Hm. destruct (Hm s) as [t [Et _]]. unfold after.
  rewrite Et, count_app. lia.
Qed.

Lemma init_enters_no_test (w : W) (s1 : state W) :
  __init__ env "win64" (start w) = (Ok tt, s1) -> tests s1 = 0%nat.
Proof.
  unfold __init__, _get_edge_version, import_data, send_mail, load_property.
  unfold_monad. cbn.
  destruct (winreg_query env w) as [[v|msg] w1]; cbn; [|discriminate].
  lookups.
  destruct (json_load env "properties.json" w1) as [[p|msg] w2]; cbn.
  - destruct p as [| | | | |d|]; cbn; try discriminate.
    lookups. intros [= <-]. reflexivity.
  - lookups. discriminate.
Qed.

(** The state the script exits in when every stage has failed. *)
Lemma main_all_fail_state (w : W) (s1 s2 s4 s5 : state W) :
  __init__ env "win64" (start w) = (Ok tt, s1) ->
  test env s1 = (Ok false, s2) ->
  test env (after (download env) s2) = (Ok false, s4) ->
  try_another_version env s4 = (Ok false, s5) ->
  exists note m subject,
    after (main env) (start w)
    = after (send_mail env m subject)
        (after (print_and_log note "debug") s5).
Proof.
  intros H1 H2 H3 H4.
  destruct (stage2_state env w s1 s2 s4 false H1 H2 H3) as ([d Hd] & _).
  unfold after at 1. unfold main. advance H1. advance H2.
  unfold bind at 1. advance Hd. advance H3. advance H4.
  match goal with
  | |- context [print_and_log ?n "debug" >> send_mail env ?m ?sub >> _] =>
      exists n, m, sub;
      destruct (print_and_log_total n "debug" s5) as [[] Hl];
      apply run_pair in Hl; advance Hl;
      destruct (send_mail_total env m sub
                  (after (print_and_log n "debug") s5)) as [[] Hs];
      apply run_pair in Hs; advance Hs
  end.
  reflexivity.
Qed.

End SecondStage.

(** X12: the script does not look at what the matched download
    returned: once the first smoke test has failed, [download] is entered
    and then [test] a second time, whether the download succeeded or not;
    when that second test passes, these are the only download and the
    only two tests of the run. *)
Theorem second_test_follows_any_download {W} (env : Env W) (w : W)
    (s1 s2 : state W) :
  __init__ env "win64" (start w) = (Ok tt, s1) ->
  test env s1 = (Ok false, s2) ->
  (2 <= tests (after (main env) (start w)))%nat /\
  (1 <= downloads (after (main env) (start w)))%nat /\
  (fst (test env (after (download env) s2)) = Ok true ->
   tests (after (main env) (start w)) = 2%nat /\
   downloads (after (main env) (start w)) = 1%nat).
Proof.
  intros H1 H2.
  destruct (init_returned env w s1 H1) as (_ & D1 & _).
  pose proof (init_enters_no_test env w s1 H1) as T1.
  pose proof (test_enters_once env s1) as T2.
  pose proof (test_enters_no_download env s1) as D2.
  rewrite (after_run _ _ _ _ H2) in T2, D2.
  pose proof (download_enters_once env s2) as D3.
  pose proof (download_enters_no_test env s2) as T3.
  set (s3 := after (download env) s2) in *.
  pose proof (test_enters_once env s3) as T4.
  pose proof (test_enters_no_download env s3) as D4.
  destruct (test_total env s3) as [b Hb]. apply run_pair in Hb.
  set (s4 := after (test env) s3) in *.
  assert (Tc : forall s : state W, tests (called CopyToPath s) = tests s).
  { intros s. unfold tests. cbn [called trace]. rewrite count_app.
    cbn. lia. }
  assert (Dc : forall s : state W,
             downloads (called CopyToPath s) = downloads s).
  { intros s. unfold downloads. cbn [called trace]. rewrite count_app.
    cbn. lia. }
  destruct b.
  - rewrite (after_run _ _ _ _ (main_stage2 env w s1 s2 s4 H1 H2 Hb)).
    rewrite Tc, Dc. lia.
  - destruct (try_another_version_total env s4) as [b3 Hb3].
    apply run_pair in Hb3.
    pose proof (count_grows _ _ (is_call Test) s4
                  (try_another_version_traced env)) as Gt.
    pose proof (count_grows _ _ (is_call Download) s4
                  (try_another_version_traced env)) as Gd.
    fold (tests s4) in Gt.
    fold (tests (after (try_another_version env) s4)) in Gt.
    fold (downloads s4) in Gd.
    fold (downloads (after (try_another_version env) s4)) in Gd.
    assert (E : tests (after (main env) (start w))
                = tests (after (try_another_version env) s4) /\
                downloads (after (main env) (start w))
                = downloads (after (try_another_version env) s4)).
    { destruct b3.
      - rewrite (after_run _ _ _ _
                   (main_stage3 env w s1 s2 s4 _ H1 H2 Hb Hb3)).
        rewrite Tc, Dc. auto.
      - destruct (main_all_fail_state env w s1 s2 s4 _ H1 H2 Hb Hb3)
          as (note & m & sub & E).
        rewrite E. unfold tests, downloads.
        rewrite !(traced_count _ _ _ _ (send_mail_traced env m sub));
          [|uncounted..].
        rewrite !(traced_count _ _ _ _ (print_and_log_traced note "debug"));
          [|uncounted..].
        auto. }
    destruct E as [Et Ed]. rewrite Et, Ed.
    split; [lia|]. split; [lia|]. rewrite Hb. discriminate.
Qed.

Lemma second_test_follows_any_download_witness :
  (2 <= tests (after (main Scenario.nothing_works) (start None)))%nat /\
  (1 <= downloads (after (main Scenario.nothing_works) (start None)))%nat /\
  (fst (test Scenario.nothing_works
          (after (download Scenario.nothing_works) Stuck.tested)) = Ok true ->
   tests (after (main Scenario.nothing_works) (start None)) = 2%nat /\
   downloads (after (main Scenario.nothing_works) (start None)) = 1%nat).
Proof.
  apply (second_test_follows_any_download Scenario.nothing_works None
           Scenario.constructed Stuck.tested);
    vm_compute; reflexivity.
Defined.

(** ** Where the object points after a success *)

Section Success.

Context {W : Type} (env : Env W).

(** [download] returns [True] only for a [url] that is a string. *)
Lemma download_true_string (s s' : state W) :
  download env s = (Ok true, s') ->
  exists u, self_dict s !! "url" = Some (PStr u).
Proof.
  unfold download. unfold_monad. cbn.
  destruct (self_dict s !! "url") as [v|] eqn:Hu; cbn;
    repeat (rewrite Hu; cbn); [|discriminate].
  destruct v as [| | |u| | |]; cbn; repeat (rewrite Hu; cbn);
    try discriminate.
  intros _. exists u. reflexivity.
Qed.

Lemma attempt_true_url (obj : pyval) (s s' : state W) :
  attempt env obj s = (Ok true, s') ->
  exists d u, obj = PDict d /\ assoc "Url" d = Some (PStr u) /\
              self_dict s' !! "url" = Some (PStr u).
Proof.
  intros Ha. destruct (attempt_url env _ _ _ _ Ha) as [d [-> Hu]].
  revert Ha. unfold attempt. unfold bind at 1.
  destruct (print_and_log (Msg "" [PDict d]) "debug" s) as [[[]|e] s1];
    [|discriminate].
  unfold bind at 1. unfold lift. cbn [py_get].
  unfold bind at 1. unfold setattr at 1. set (s2 := State _ _ _).
  unfold bind.
  destruct (download env s2) as [[[]|e] s3] eqn:Ed; try discriminate.
  intros _. destruct (download_true_string _ _ Ed) as [u Hs2].
  subst s2. cbn [self_dict] in Hs2. rewrite lookup_insert_eq in Hs2.
  injection Hs2 as Hs2. exists d, u. split; [reflexivity|].
  rewrite Hu, Hs2. split; [|reflexivity].
  destruct (assoc "Url" d) as [x|]; cbn in Hs2; [congruence|discriminate].
Qed.

Lemma try_candidates_true_url (cands : list pyval) (s s' : state W) :
  try_candidates env cands s = (Ok true, s') ->
  exists d u, In (PDict d) cands /\ assoc "Url" d = Some (PStr u) /\
              self_dict s' !! "url" = Some (PStr u).
Proof.
  revert s. induction cands as [|c rest IH]; intros s; [discriminate|].
  rewrite try_candidates_turn.
  destruct (attempt env c s) as [[[]|e] s1] eqn:Ea; try discriminate.
  - destruct (attempt_true_url _ _ _ Ea) as (d & u & -> & Hd & Hu).
    destruct (report_success_run d _ s1 Hu) as [t [Ht _]].
    rewrite Ht. intros [= <-]. exists d, u. cbn. auto.
  - intros H. destruct (IH _ H) as (d & u & Hin & Hd & Hu).
    exists d, u. cbn. auto.
Qed.

End Success.

(** X13: when [try_another_version] returns [True], [self.url] is the
    [Url], a string, of one of the candidates the scan returned: the
    matched URL built by [__init__] is gone. *)
Theorem success_points_at_a_candidate {W} (env : Env W) (s s1 : state W)
    (cands : list pyval) :
  scan env (called TryAnotherVersion s) = (Ok cands, s1) ->
  fst (try_another_version env s) = Ok true ->
  exists d u,
    In (PDict d) cands /\ assoc "Url" d = Some (PStr u) /\
    self_dict (after (try_another_version env) s) !! "url" = Some (PStr u).
Proof.
  intros Hscan.
  destruct (try_candidates_returns env cands s1 (scan_dicts env _ _ _ Hscan))
    as [b [s2 Hb]].
  unfold after, try_another_version. rewrite enter_run.
  unfold try_except, bind. rewrite Hscan, Hb. cbn [fst snd].
  intros [= ->]. exact (try_candidates_true_url env _ _ _ Hb).
Qed.

Lemma success_points_at_a_candidate_witness :
  exists d u,
    In (PDict d) [Run.u1; Run.u2; Run.u3] /\
    assoc "Url" d = Some (PStr u) /\
    self_dict (after (try_another_version Scenario.second_works)
                 Scenario.constructed) !! "url" = Some (PStr u).
Proof.
  apply (success_points_at_a_candidate Scenario.second_works
           Scenario.constructed Run.scanned [Run.u1; Run.u2; Run.u3]);
    vm_compute; reflexivity.
Defined.

(** ** Distribution on an object that has its folders *)

Section Distribution.

Context {W : Type} (env : Env W).

Lemma for_each_app {A} (l1 l2 : list A) (body : A -> M W unit)
    (s : state W) :
  for_each (l1 ++ l2) body s
  = (for_each l1 body >> for_each l2 body) s.
Proof.
  revert s. induction l1 as [|x rest IH]; intros s; cbn [for_each app].
  - reflexivity.
  - unfold bind.
    destruct (body x s) as [[[]|e] s1]; [|reflexivity].
    rewrite IH. reflexivity.
Qed.

(** The copies into folders that accept them. *)
Lemma copies_succeed (exe : pyval) (folders : list pyval) (s : state W) :
  self_dict s !! "DRIVER_NAME" = Some exe ->
  (forall dst w, In dst folders ->
                 exists w', shutil_copy2 env exe dst w = (Returned tt, w')) ->
  exists w',
    for_each folders
      (fun folder =>
         let* exe := getattr "DRIVER_NAME" in
         call_ext (ECopy exe folder) (shutil_copy2 env exe folder)) s
    = (Ok tt,
       State (self_dict s) w' (trace s ++ map (ECopy exe) folders)).
Proof.
  intros Hexe. revert s Hexe.
  induction folders as [|f rest IH]; intros s Hexe Hcopy; cbn [for_each map].
  - exists (world s). rewrite app_nil_r. destruct s. reflexivity.
  - destruct (Hcopy f (world s)) as [w1 H1]; [left; reflexivity|].
    unfold bind at 1. unfold bind at 1. unfold getattr at 1.
    rewrite Hexe. unfold call_ext at 1. rewrite H1.
    set (s1 := State _ _ _).
    destruct (IH s1) as [w' H']; [exact Hexe | |].
    { intros dst w0 Hin. apply Hcopy. right. exact Hin. }
    rewrite H'. exists w'. subst s1. cbn [self_dict trace].
    rewrite <- app_assoc. reflexivity.
Qed.

End Distribution.

(** X14: on an object to which [BOT_FOLDERS] has been given as a list,
    and in a world where the copies succeed, [copy_to_path] copies
    [DRIVER_NAME] into every folder once, in the order of the list, logs,
    and returns. *)
Theorem copy_to_path_copies_to_every_folder {W} (env : Env W) (s : state W)
    (exe : pyval) (folders : list pyval) :
  self_dict s !! "BOT_FOLDERS" = Some (PList folders) ->
  self_dict s !! "DRIVER_NAME" = Some exe ->
  (forall dst w, In dst folders ->
                 exists w', shutil_copy2 env exe dst w = (Returned tt, w')) ->
  fst (copy_to_path env s) = Ok tt /\
  List.filter is_copy (trace (after (copy_to_path env) s))
  = List.filter is_copy (trace s) ++ map (ECopy exe) folders.
Proof.
  intros Hf Hexe Hcopy.
  unfold after. destruct (copy_to_path env s) as [o s'] eqn:E.
  cbn [fst snd]. revert E.
  unfold copy_to_path. rewrite enter_run.
  unfold bind at 1. unfold getattr at 1. cbn [called self_dict].
  rewrite Hf. unfold bind at 1. unfold lift. cbn [py_iter].
  unfold bind at 1.
  destruct (copies_succeed env exe folders (called CopyToPath s) Hexe Hcopy)
    as [w' H].
  fold (called CopyToPath s). rewrite H. unfold_monad. cbn. rewrite Hf. cbn.
  intros [= <- <-]. split; [reflexivity|]. cbn [trace].
  rewrite <- !app_assoc, !List.filter_app. cbn.
  rewrite app_nil_r. f_equal.
  clear. induction folders as [|f rest IH]; cbn; [reflexivity|].
  rewrite IH. reflexivity.
Qed.

Lemma copy_to_path_copies_to_every_folder_witness :
  fst (copy_to_path Scenario.second_works Edge.with_folders) = Ok tt /\
  List.filter is_copy
    (trace (after (copy_to_path Scenario.second_works) Edge.with_folders))
  = [ECopy (PStr "msedgedriver.exe") (PStr "C:/bots/a");
     ECopy (PStr "msedgedriver.exe") (PStr "C:/bots/b")].
Proof.
  apply (copy_to_path_copies_to_every_folder Scenario.second_works
           Edge.with_folders (PStr "msedgedriver.exe")
           [PStr "C:/bots/a"; PStr "C:/bots/b"]).
  - vm_compute. reflexivity.
  - vm_compute. reflexivity.
  - intros dst w _. exists w. reflexivity.
Defined.

Lemma filter_copies (exe : pyval) (folders : list pyval) :
  List.filter is_copy (map (ECopy exe) folders) = map (ECopy exe) folders.
Proof.
  induction folders as [|f rest IH]; cbn; [reflexivity|].
  rewrite IH. reflexivity.
Qed.

Lemma count_log_copies (exe : pyval) (folders : list pyval) :
  count is_log (map (ECopy exe) folders) = 0%nat.
Proof.
  induction folders as [|f rest IH]; [reflexivity|]. exact IH.
Qed.

(** X15: the copy that raises ends [copy_to_path]: the exception
    reaches the caller, the folders after the failing one receive
    nothing, and the line that reports the copies is not logged. *)
Theorem copy_to_path_stops_at_first_failure {W} (env : Env W) (s : state W)
    (exe f : pyval) (pre post : list pyval) (msg : string) :
  self_dict s !! "BOT_FOLDERS" = Some (PList (pre ++ f :: post)) ->
  self_dict s !! "DRIVER_NAME" = Some exe ->
  (forall dst w, In dst pre ->
                 exists w', shutil_copy2 env exe dst w = (Returned tt, w')) ->
  (forall w, exists w', shutil_copy2 env exe f w = (Failed msg, w')) ->
  fst (copy_to_path env s) = Raise (LibraryError msg) /\
  List.filter is_copy (trace (after (copy_to_path env) s))
  = List.filter is_copy (trace s) ++ map (ECopy exe) (pre ++ [f]) /\
  count is_log (trace (after (copy_to_path env) s)) = count is_log (trace s).
Proof.
  intros Hf Hexe Hpre Hfail.
  unfold after. destruct (copy_to_path env s) as [o s'] eqn:E.
  cbn [fst snd]. revert E.
  unfold copy_to_path. rewrite enter_run.
  unfold bind at 1. unfold getattr at 1. cbn [called self_dict].
  rewrite Hf. unfold bind at 1. unfold lift. cbn [py_iter].
  unfold bind at 1. fold (called CopyToPath s).
  rewrite for_each_app. unfold bind at 1.
  destruct (copies_succeed env exe pre (called CopyToPath s) Hexe Hpre)
    as [w1 H1].
  rewrite H1. cbn [for_each]. unfold bind at 1. unfold bind at 1.
  unfold getattr at 1. cbn [self_dict called]. rewrite Hexe.
  unfold call_ext at 1. cbn [world].
  destruct (Hfail w1) as [w2 H2]. rewrite H2.
  intros [= <- <-]. split; [reflexivity|]. cbn [trace called].
  split.
  - rewrite <- !app_assoc, !List.filter_app, map_app, !filter_copies.
    cbn. reflexivity.
  - rewrite <- !app_assoc, !count_app, count_log_copies. cbn. lia.
Qed.

Lemma copy_to_path_stops_at_first_failure_witness :
  fst (copy_to_path Locked.folder_b_is_read_only Locked.three_folders)
  = Raise (LibraryError "PermissionError") /\
  List.filter is_copy
    (trace (after (copy_to_path Locked.folder_b_is_read_only)
              Locked.three_folders))
  = [ECopy (PStr "msedgedriver.exe") (PStr "C:/bots/a");
     ECopy (PStr "msedgedriver.exe") (PStr "C:/bots/b")] /\
  count is_log
    (trace (after (copy_to_path Locked.folder_b_is_read_only)
              Locked.three_folders)) = 0%nat.
Proof.
  apply (copy_to_path_stops_at_first_failure Locked.folder_b_is_read_only
           Locked.three_folders (PStr "msedgedriver.exe") (PStr "C:/bots/b")
           [PStr "C:/bots/a"] [PStr "C:/bots/c"] "PermissionError").
  - vm_compute. reflexivity.
  - vm_compute. reflexivity.
  - intros dst w [<-|[]]. exists w. reflexivity.
  - intros w. exists w. reflexivity.
Defined.

(** ** A scan that fails, seen from the script *)

(** X16: when the first two stages fail and the scan of the index
    raises, [send_mail] is entered twice in the run: once by
    [try_another_version] when it catches the exception, and once more by
    the script when it sees [False]; the run then leaves through
    [exit()]. *)
Theorem scan_failure_notifies_twice {W} (env : Env W) (w : W)
    (s1 s2 s4 s5 : state W) (e : exn) :
  __init__ env "win64" (start w) = (Ok tt, s1) ->
  test env s1 = (Ok false, s2) ->
  test env (after (download env) s2) = (Ok false, s4) ->
  scan env (called TryAnotherVersion s4) = (Raise e, s5) ->
  fst (main env (start w)) = Raise (SystemExit None) /\
  mails (after (main env) (start w)) = 2%nat /\
  downloads (after (main env) (start w)) = 1%nat.
Proof.
  intros H1 H2 H3 H4.
  destruct (init_returned env w s1 H1) as (_ & D1 & _).
  destruct (stage2_state env w s1 s2 s4 false H1 H2 H3) as (_ & M4 & _).
  destruct (try_another_version_caught env s4 s5 e H4) as (m & sub & E).
  destruct (main_all_fail env w s1 s2 s4 _ H1 H2 H3 E) as (s6 & Em & M6 & _).
  destruct (main_all_fail_state env w s1 s2 s4 _ H1 H2 H3 E)
    as (note & m' & sub' & Es).
  pose proof (scan_traced env (called TryAnotherVersion s4)) as [t [Et Ht]].
  rewrite H4 in Et. cbn [snd called trace] in Et.
  rewrite Em. cbn [fst]. split; [reflexivity|]. split.
  - rewrite (after_run _ _ _ _ Em), M6, send_mail_enters_once. unfold mails.
    rewrite (traced_count _ _ _ _ (print_and_log_traced _ _)); [|uncounted].
    rewrite (traced_count _ _ _ _ (log_exception_traced e)); [|uncounted].
    rewrite Et, !count_app, (count_none _ _ _ Ht); [|uncounted].
    unfold mails in M4. rewrite M4. reflexivity.
  - rewrite Es. unfold downloads.
    rewrite (traced_count _ _ _ _ (send_mail_traced env m' sub'));
      [|uncounted].
    rewrite (traced_count _ _ _ _ (print_and_log_traced note "debug"));
      [|uncounted].
    rewrite (traced_count _ _ _ _ (send_mail_traced env m sub)); [|uncounted].
    rewrite (traced_count _ _ _ _ (print_and_log_traced _ _)); [|uncounted].
    rewrite (traced_count _ _ _ _ (log_exception_traced e)); [|uncounted].
    rewrite Et, !count_app, (count_none _ _ _ Ht); [|uncounted].
    pose proof (test_enters_no_download env (after (download env) s2)) as D4.
    rewrite (after_run _ _ _ _ H3) in D4.
    pose proof (download_enters_once env s2) as D3.
    pose proof (test_enters_no_download env s1) as D2.
    rewrite (after_run _ _ _ _ H2) in D2.
    unfold downloads in *. cbn. lia.
Qed.

Lemma scan_failure_notifies_twice_witness :
  fst (main Edge.broken_index (start None)) = Raise (SystemExit None) /\
  mails (after (main Edge.broken_index) (start None)) = 2%nat /\
  downloads (after (main Edge.broken_index) (start None)) = 1%nat.
Proof.
  apply (scan_failure_notifies_twice Edge.broken_index None
           Scenario.constructed Stuck.tested Stuck.retested
           (after (scan Edge.broken_index)
              (called TryAnotherVersion Stuck.retested))
           (LibraryError "ExpatError"));
    vm_compute; reflexivity.
Defined.

(** ** Loading the properties *)

(** X17: [import_data] never raises.  It returns what
    [properties.json] holds, without entering [send_mail]; when the file
    cannot be read or parsed it logs, enters [send_mail] once and returns
    [None]. *)
Theorem import_data_result {W} (env : Env W) (s : state W) :
  self_dict s !! "PATH_OF_PROPERTIES" = None ->
  match json_load env "properties.json" (world s) with
  | (Returned p, w1) =>
      fst (import_data env s) = Ok p /\
      world (after (import_data env) s) = w1 /\
      mails (after (import_data env) s) = mails s
  | (Failed _, w1) =>
      fst (import_data env s) = Ok PNone /\
      mails (after (import_data env) s) = (mails s + 1)%nat
  end.
Proof.
  intros Hp. unfold after.
  destruct (import_data env s) as [o s'] eqn:E. cbn [fst snd]. revert E.
  unfold import_data. rewrite enter_run.
  unfold try_except, bind at 1. unfold getattr at 1.
  cbn [called self_dict]. rewrite Hp. cbn [class_attr String.eqb Ascii.eqb
    Bool.eqb]. unfold call_ext at 1. cbn [world called].
  destruct (json_load env "properties.json" (world s)) as [[p|msg] w1];
    cbn [is_Exception].
  - intros [= <- <-]. repeat split. unfold mails. cbn [trace called].
    rewrite <- app_assoc, count_app. cbn. lia.
  - set (s1 := State _ _ _).
    assert (M1 : mails s1 = mails s).
    { subst s1. unfold mails. cbn [trace called].
      rewrite <- app_assoc, count_app. cbn. lia. }
    set (note := Msg "Log error of version, notiftying via mail..." []).
    destruct (print_and_log_total note "debug" s1) as [[] Hl].
    apply run_pair in Hl. advance Hl.
    match goal with
    | |- context [send_mail env ?m ?sub] =>
        destruct (send_mail_total env m sub
                    (after (print_and_log note "debug") s1)) as [[] Hs];
        apply run_pair in Hs; advance Hs;
        pose proof (send_mail_enters_once env m sub
                      (after (print_and_log note "debug") s1)) as Ms
    end.
    intros [= <- <-]. split; [reflexivity|].
    cbn [str_exn] in Ms. rewrite Ms. unfold mails at 1.
    rewrite (traced_count _ _ _ _ (print_and_log_traced note "debug"));
      [|uncounted].
    fold (mails s1). lia.
Qed.

Lemma import_data_result_witness :
  fst (import_data Scenario.no_properties (start None)) = Ok PNone /\
  mails (after (import_data Scenario.no_properties) (start None)) = 1%nat.
Proof.
  apply (import_data_result Scenario.no_properties (start None)).
  vm_compute. reflexivity.
Defined.

(** ** What the filter keeps *)

Lemma starts_with_spec (p s : string) :
  starts_with p s = true <-> exists post, s = String.append p post.
Proof.
  revert s. induction p as [|a p IH]; intros s; cbn [starts_with].
  - split; [intros _; exists s; reflexivity | reflexivity].
  - destruct s as [|b s].
    + split; [discriminate | intros [post H]; discriminate].
    + rewrite andb_true_iff, Ascii.eqb_eq, IH. split.
      * intros [-> [post ->]]. exists post. reflexivity.
      * intros [post H]. cbn in H. injection H as -> ->. eauto.
Qed.

Lemma contains_cons (sub s : string) (c : ascii) :
  contains sub (String c s)
  = starts_with sub (String c s) || contains sub s.
Proof. reflexivity. Qed.

Lemma contains_here (sub s : string) :
  starts_with sub s = true -> contains sub s = true.
Proof.
  intros H. destruct s as [|c s]; unfold contains; fold contains;
    rewrite H; reflexivity.
Qed.

(** [contains sub s] is Python's [sub in s]: [sub] occurs somewhere in
    [s]. *)
Lemma contains_spec (sub s : string) :
  contains sub s = true <->
  exists pre post, s = String.append pre (String.append sub post).
Proof.
  split.
  - induction s as [|c s IH]; cbn [contains]; rewrite orb_true_iff.
    + intros [H|H]; [|discriminate].
      apply starts_with_spec in H as [post H]. exists EmptyString, post.
      exact H.
    + intros [H|H].
      * apply starts_with_spec in H as [post H]. exists EmptyString, post.
        exact H.
      * destruct (IH H) as (pre & post & ->).
        exists (String c pre), post. reflexivity.
  - intros (pre & post & ->). induction pre as [|c pre IH].
    + change (contains sub (String.append sub post) = true).
      apply contains_here. apply starts_with_spec. eauto.
    + change (contains sub
                (String c (String.append pre (String.append sub post)))
              = true).
      rewrite contains_cons, IH. apply orb_true_r.
Qed.

(** X18: an entry of the listing is kept exactly when it is a
    dictionary whose [Name] is a string that has, before its first dot,
    what [self.version] has before its first dot, and in which
    [self.os_type] occurs somewhere. *)
Theorem kept_entries_meaning {W} (s : state W) (version os : string)
    (u : pyval) :
  self_dict s !! "version" = Some (PStr version) ->
  self_dict s !! "os_type" = Some (PStr os) ->
  fst (is_candidate u s) = Ok true <->
  exists d n pre post,
    u = PDict d /\ assoc "Name" d = Some (PStr n) /\
    before_dot n = before_dot version /\
    n = String.append pre (String.append os post).
Proof.
  intros Hv Ho. split.
  - intros H. destruct (is_candidate u s) as [o s'] eqn:E.
    cbn [fst] in H. subst o.
    pose proof (is_candidate_blob u s s' true E) as Hb.
    rewrite (is_candidate_selected s version os u Hv Ho Hb) in E.
    injection E as E _. unfold selected in E.
    destruct u as [| | | | |d|]; try discriminate.
    destruct (assoc "Name" d) as [[| | |n| | |]|] eqn:Hn; try discriminate.
    apply andb_true_iff in E as [E1 E2].
    apply String.eqb_eq in E1. apply contains_spec in E2 as (pre & post & E2).
    exists d, n, pre, post. repeat split; assumption.
  - intros (d & n & pre & post & -> & Hn & Hm & Hs).
    rewrite (is_candidate_selected s version os (PDict d) Hv Ho).
    + cbn [fst]. unfold selected. rewrite Hn. f_equal.
      apply andb_true_iff. split.
      * apply String.eqb_eq. exact Hm.
      * apply contains_spec. eauto.
    + unfold is_blob. rewrite Hn. reflexivity.
Qed.

Lemma kept_entries_meaning_witness :
  fst (is_candidate Run.u2 Scenario.constructed) = Ok true.
Proof.
  apply (proj2 (kept_entries_meaning Scenario.constructed Sim.version "win64"
                  Run.u2 eq_refl eq_refl)).
  exists [("Name", PStr "103.0.1264.9/edgedriver_win64.zip");
          ("Url", PStr "u2")],
    "103.0.1264.9/edgedriver_win64.zip", "103.0.1264.9/edgedriver_", ".zip".
  repeat split.
Defined.
